(** * ffprobe wrapper: the parsing core of [ffprobe/ffprobe.py]

    A shallow embedding of the two classes of the module:

    - [FFStream] (one parsed stream: the attribute dictionary filled from the
      [key=value] lines of a block, the eagerly computed [framerate], and the
      derived queries);
    - [FFProbe] (the two read loops of [FFProbe.__init__] over the standard
      output and the standard error of the probing process, and the
      classification pass that fills the per-kind lists).

    The process launch itself (lines 26-38 of the source) is not modelled: the
    constructor is a function of the two line sequences read from the pipes.

    Conventions of the embedding.
    - A Python [str] is a Rocq [string]; the character with code [n] is the
      code point [n], so the model covers text in the range U+0000..U+00FF.
      Each line is the already decoded text of one [readline()] result.
    - Python exceptions are values of [exn]; a computation that can raise
      returns a [result].
    - A Python [int] is a [Z].  The conversions between integers and text
      have the length limit of the interpreter (more than 4300 digits are
      a [ValueError]), at its default value.
    - A Python [float] is an IEEE binary64 value, given by the standard
      library's [spec_float] at precision 53 and maximal exponent 1024.
    - A dictionary is a [gmap] with string keys.
    - An object has an identity ([oid]): two records with equal attributes
      made by two constructor calls are different objects.
    - A method call [self.name()] looks [name] up on the instance first.
      The constructor of [FFStream] stores the parsed fields in the
      instance dictionary, so a field named like a method shadows it, and
      the call raises [TypeError] (see [call]).

    [FFStream.__repr__] is modelled up to the text of a float, which is a
    parameter (the constructor stores no float).  [FFProbe.__repr__] prints
    dictionaries in insertion order, which a [gmap] does not record: it is
    not modelled. *)

From Stdlib Require Import ZArith List String Ascii Bool Lia SpecFloat.
From stdpp Require Import base option list gmap strings fin_maps pretty.
Import ListNotations.

Local Open Scope string_scope.
Local Open Scope list_scope.
Local Open Scope Z_scope.

(** ** Python built-ins used by the module *)

Module Py.

(** The exception classes that the code can raise or catch. *)
Inductive exn : Set :=
| ValueError
| ZeroDivisionError
| OverflowError
| AttributeError
| KeyError
| TypeError
| UnboundLocalError
| FFProbeError.

Inductive result (A : Type) : Type :=
| Ok (a : A)
| Raise (e : exn).
Arguments Ok {A} a.
Arguments Raise {A} e.

Definition bind {A B} (m : result A) (k : A -> result B) : result B :=
  match m with
  | Ok a => k a
  | Raise e => Raise e
  end.

Notation "'do' x <- m ; k" := (bind m (fun x => k))
  (at level 10, x name, m at level 100, k at level 200).

Definition is_ok {A} (m : result A) : bool :=
  match m with Ok _ => true | Raise _ => false end.

(** *** Characters *)

(** [str.isspace] / the regular expression class [\s] on U+0000..U+00FF:
    TAB, LF, VT, FF, CR, the separators U+001C..U+001F, SPACE, NEL (U+0085)
    and the no-break space (U+00A0). *)
Definition isspace (c : ascii) : bool :=
  let n := Z.of_nat (nat_of_ascii c) in
  ((9 <=? n) && (n <=? 13)) || ((28 <=? n) && (n <=? 32))
  || (n =? 133) || (n =? 160).

(** The white space that [int] and [float] skip around a number: the
    characters of [isspace] except the separators U+001C..U+001F. *)
Definition isspace_num (c : ascii) : bool :=
  let n := Z.of_nat (nat_of_ascii c) in
  ((9 <=? n) && (n <=? 13)) || (n =? 32) || (n =? 133) || (n =? 160).

Definition isdigit (c : ascii) : bool :=
  let n := Z.of_nat (nat_of_ascii c) in (48 <=? n) && (n <=? 57).

Definition digit_val (c : ascii) : Z := Z.of_nat (nat_of_ascii c) - 48.

(** The regular expression class [\w] of a [str] pattern on
    U+0000..U+00FF: the characters that are alphanumeric for Python
    ([isalpha], [isdecimal], [isdigit] or [isnumeric]) and the underscore. *)
Definition isword (c : ascii) : bool :=
  let n := Z.of_nat (nat_of_ascii c) in
  isdigit c
  || ((65 <=? n) && (n <=? 90)) || ((97 <=? n) && (n <=? 122))
  || (n =? 95)
  || (n =? 170) || (n =? 178) || (n =? 179) || (n =? 181)
  || (n =? 185) || (n =? 186) || ((188 <=? n) && (n <=? 190))
  || ((192 <=? n) && (n <=? 214)) || ((216 <=? n) && (n <=? 246))
  || ((248 <=? n) && (n <=? 255)).

Definition is_newline (c : ascii) : bool := Ascii.eqb c "010"%char.

(** *** Strings *)

(** [pat in s]. *)
Fixpoint contains (pat s : string) : bool :=
  String.prefix pat s
  || match s with
     | EmptyString => false
     | String _ s' => contains pat s'
     end.

(** [s.split(sep)] for a one-character separator: never empty. *)
Fixpoint split (sep : ascii) (s : string) : list string :=
  match s with
  | EmptyString => [EmptyString]
  | String c s' =>
      if Ascii.eqb c sep then EmptyString :: split sep s'
      else match split sep s' with
           | [] => [String c EmptyString]
           | p :: ps => String c p :: ps
           end
  end.

(** Removal of the leading, the trailing, and both runs of the characters
    of a class. *)
Fixpoint lstrip_by (p : ascii -> bool) (s : string) : string :=
  match s with
  | EmptyString => EmptyString
  | String c s' => if p c then lstrip_by p s' else s
  end.

Fixpoint rstrip_by (p : ascii -> bool) (s : string) : string :=
  match s with
  | EmptyString => EmptyString
  | String c s' =>
      match rstrip_by p s' with
      | EmptyString => if p c then EmptyString else String c EmptyString
      | r => String c r
      end
  end.

Definition strip_by (p : ascii -> bool) (s : string) : string :=
  rstrip_by p (lstrip_by p s).

(** [s.strip()]. *)
Definition strip (s : string) : string := strip_by isspace s.

(** *** Values *)

(** The Python values that occur as dictionary entries and query results. *)
Inductive pyval : Type :=
| VStr (s : string)
| VInt (z : Z)
| VFloat (f : spec_float)
| VNone.

(** [v == s] for a string literal [s]. *)
Definition eq_str (v : pyval) (s : string) : bool :=
  match v with
  | VStr t => String.eqb t s
  | _ => false
  end.

(** *** Floating point (binary64) *)

Definition prec : Z := 53.
Definition emax : Z := 1024.

(** The binary64 value nearest (ties to even) to the quotient [a / b] of two
    positive integers, with the given sign. *)
Definition round_quotient (neg : bool) (a b : Z) : spec_float :=
  let '(q, e, l) := SFdiv_core_binary prec emax a 0 b 0 in
  binary_round_aux prec emax neg q e l.

(** The binary64 value nearest (ties to even) to the integer [z]. *)
Definition float_of_Z (z : Z) : spec_float :=
  binary_normalize prec emax z 0 false.

Definition is_infinity (f : spec_float) : bool :=
  match f with S754_infinity _ => true | _ => false end.

Definition is_zero (f : spec_float) : bool :=
  match f with S754_zero _ => true | _ => false end.

(** [float(z)] for an integer, and the implicit conversion of an integer
    operand of a float operation. *)
Definition int_to_float (z : Z) : result spec_float :=
  let f := float_of_Z z in
  if is_infinity f then Raise OverflowError else Ok f.

(** [a / b] on two integers: the correctly rounded quotient. *)
Definition int_truediv (a b : Z) : result spec_float :=
  if b =? 0 then Raise ZeroDivisionError
  else
    let neg := xorb (a <? 0) (b <? 0) in
    if a =? 0 then Ok (S754_zero neg)
    else
      let f := round_quotient neg (Z.abs a) (Z.abs b) in
      if is_infinity f then Raise OverflowError else Ok f.

(** [x / y] on two floats. *)
Definition float_truediv (x y : spec_float) : result spec_float :=
  if is_zero y then Raise ZeroDivisionError
  else Ok (SFdiv prec emax x y).

(** [operator.truediv] on the operands that [functools.reduce] meets: the
    accumulator is an integer or a float, the right operand an integer. *)
Definition truediv (acc : pyval) (b : Z) : result pyval :=
  match acc with
  | VInt a => do f <- int_truediv a b; Ok (VFloat f)
  | VFloat x => do y <- int_to_float b; do f <- float_truediv x y; Ok (VFloat f)
  | _ => Raise TypeError
  end.

(** Rounding of the non-negative rational [num / den] to the nearest
    integer, ties to even. *)
Definition round_half_even (num den : Z) : Z :=
  let q := num / den in
  let r := num mod den in
  match (2 * r) ?= den with
  | Lt => q
  | Gt => q + 1
  | Eq => if Z.even q then q else q + 1
  end.

(** [round(x)] with one argument. *)
Definition py_round (x : pyval) : result pyval :=
  match x with
  | VInt z => Ok (VInt z)
  | VFloat (S754_zero _) => Ok (VInt 0)
  | VFloat (S754_infinity _) => Raise OverflowError
  | VFloat S754_nan => Raise ValueError
  | VFloat (S754_finite neg m e) =>
      let a := if 0 <=? e then Z.pos m * 2 ^ e
               else round_half_even (Z.pos m) (2 ^ (- e)) in
      Ok (VInt (if neg then - a else a))
  | _ => Raise TypeError
  end.

(** *** [int(s)] *)

Inductive digit_state : Set := AtStart | AfterDigit | AfterUnderscore.

(** [digit (["_"] digit)*] up to the end of the text. *)
Fixpoint digitpart (st : digit_state) (acc : Z) (s : string) : option Z :=
  match s with
  | EmptyString => match st with AfterDigit => Some acc | _ => None end
  | String c s' =>
      if isdigit c then digitpart AfterDigit (10 * acc + digit_val c) s'
      else if Ascii.eqb c "_"
           then match st with
                | AfterDigit => digitpart AfterUnderscore acc s'
                | _ => None
                end
           else None
  end.

(** The number of decimal digits in a text. *)
Fixpoint count_digits (s : string) : nat :=
  match s with
  | EmptyString => O
  | String c s' => if isdigit c then S (count_digits s') else count_digits s'
  end.

(** The default of [sys.get_int_max_str_digits()]. *)
Definition int_max_str_digits : nat := 4300.

(** [int(s)] in base ten: surrounding white space, an optional sign, then
    digits that single underscores may separate; a text with more digits
    than the limit is rejected. *)
Definition int_of_str (s : string) : result Z :=
  let t := strip_by isspace_num s in
  let '(neg, body) :=
    match t with
    | String "+" r => (false, r)
    | String "-" r => (true, r)
    | _ => (false, t)
    end in
  match digitpart AtStart 0 body with
  | Some n =>
      if (int_max_str_digits <? count_digits body)%nat then Raise ValueError
      else Ok (if neg then - n else n)
  | None => Raise ValueError
  end.

(** [int(v)]. *)
Definition py_int (v : pyval) : result Z :=
  match v with
  | VStr s => int_of_str s
  | VInt z => Ok z
  | VFloat (S754_zero _) => Ok 0
  | VFloat (S754_infinity _) => Raise OverflowError
  | VFloat S754_nan => Raise ValueError
  | VFloat (S754_finite neg m e) =>
      let a := if 0 <=? e then Z.pos m * 2 ^ e else Z.pos m / 2 ^ (- e) in
      Ok (if neg then - a else a)
  | VNone => Raise TypeError
  end.

(** *** [float(s)] *)

(** The underscore rule of numeric literals: an underscore stands only
    between two digits.  Returns the text without its underscores.
    [prev] is the previous character. *)
Fixpoint drop_underscores (prev : ascii) (s : string) : option string :=
  match s with
  | EmptyString => if Ascii.eqb prev "_" then None else Some EmptyString
  | String c s' =>
      if Ascii.eqb c "_"
      then if isdigit prev then drop_underscores c s' else None
      else if Ascii.eqb prev "_" && negb (isdigit c) then None
           else option_map (String c) (drop_underscores c s')
  end.

(** A maximal run of decimal digits: its value, its length, the rest. *)
Fixpoint digits_run (acc : Z) (len : Z) (s : string) : Z * Z * string :=
  match s with
  | String c s' =>
      if isdigit c then digits_run (10 * acc + digit_val c) (len + 1) s'
      else (acc, len, s)
  | EmptyString => (acc, len, s)
  end.

Definition lower (c : ascii) : ascii :=
  let n := nat_of_ascii c in
  if (65 <=? Z.of_nat n) && (Z.of_nat n <=? 90)
  then ascii_of_nat (n + 32) else c.

Fixpoint lower_str (s : string) : string :=
  match s with
  | EmptyString => EmptyString
  | String c s' => String (lower c) (lower_str s')
  end.

(** The optional exponent of a decimal literal.  A malformed exponent is
    not consumed. *)
Definition exponent_part (s : string) : Z * string :=
  match s with
  | String c s1 =>
      if Ascii.eqb (lower c) "e" then
        let '(eneg, s2) :=
          match s1 with
          | String "+" r => (false, r)
          | String "-" r => (true, r)
          | _ => (false, s1)
          end in
        let '(v, len, rest) := digits_run 0 0 s2 in
        if len =? 0 then (0, s) else ((if eneg then - v else v), rest)
      else (0, s)
  | EmptyString => (0, s)
  end.

(** The binary64 value nearest to [m * 10 ^ k], [m] positive. *)
Definition decimal_to_float (neg : bool) (m k : Z) : spec_float :=
  if m =? 0 then S754_zero neg
  else if 0 <=? k
       then binary_normalize prec emax
              ((if neg then - m else m) * 10 ^ k) 0 false
       else round_quotient neg m (10 ^ (- k)).

(** [float(s)]: surrounding white space, the underscore rule, an optional
    sign, then [inf], [infinity], [nan] (in any case) or a decimal literal
    with an optional fraction and exponent; out of range literals round to
    an infinity or to zero. *)
Definition float_of_str (s : string) : result spec_float :=
  match drop_underscores " " (strip_by isspace_num s) with
  | None => Raise ValueError
  | Some t =>
      let '(neg, body) :=
        match t with
        | String "+" r => (false, r)
        | String "-" r => (true, r)
        | _ => (false, t)
        end in
      let lo := lower_str body in
      if String.eqb lo "inf" || String.eqb lo "infinity"
      then Ok (S754_infinity neg)
      else if String.eqb lo "nan" then Ok S754_nan
      else
        let '(ip, ilen, r1) := digits_run 0 0 body in
        let '(m, flen, r2) :=
          match r1 with
          | String "." r => digits_run ip 0 r
          | _ => (ip, 0, r1)
          end in
        if ilen + flen =? 0 then Raise ValueError
        else
          let '(ex, r3) := exponent_part r2 in
          match r3 with
          | EmptyString => Ok (decimal_to_float neg m (ex - flen))
          | _ => Raise ValueError
          end
  end.

(** [float(v)]. *)
Definition py_float (v : pyval) : result spec_float :=
  match v with
  | VStr s => float_of_str s
  | VInt z => int_to_float z
  | VFloat f => Ok f
  | VNone => Raise TypeError
  end.

(** *** Regular expressions

    Backtracking matchers in continuation style: a matcher consumes a
    prefix of the text and hands the rest to its continuation; when the
    continuation fails the next alternative is tried, in the order of
    Python's [re] (greedy repetition, leftmost alternative first). *)

Section Regex.
Context {A : Type}.

(** One character of the class [p]. *)
Definition re_one (p : ascii -> bool) (k : ascii -> string -> option A)
    (s : string) : option A :=
  match s with
  | String c s' => if p c then k c s' else None
  | EmptyString => None
  end.

(** [p*], greedy; the continuation receives the matched text. *)
Fixpoint re_star (p : ascii -> bool) (k : string -> string -> option A)
    (s : string) : option A :=
  match s with
  | String c s' =>
      if p c then
        match re_star p (fun m r => k (String c m) r) s' with
        | Some a => Some a
        | None => k EmptyString s
        end
      else k EmptyString s
  | EmptyString => k EmptyString s
  end.

(** [p{0,n}], greedy. *)
Fixpoint re_upto (n : nat) (p : ascii -> bool)
    (k : string -> string -> option A) (s : string) : option A :=
  match n with
  | O => k EmptyString s
  | S n' =>
      match s with
      | String c s' =>
          if p c then
            match re_upto n' p (fun m r => k (String c m) r) s' with
            | Some a => Some a
            | None => k EmptyString s
            end
          else k EmptyString s
      | EmptyString => k EmptyString s
      end
  end.

(** [r1|r2]. *)
Definition re_alt (r1 r2 : string -> option A) (s : string) : option A :=
  match r1 s with
  | Some a => Some a
  | None => r2 s
  end.

(** [re.search]: the first position at which the pattern matches. *)
Fixpoint re_search (r : string -> option A) (s : string) : option A :=
  match r s with
  | Some a => Some a
  | None =>
      match s with
      | String _ s' => re_search r s'
      | EmptyString => None
      end
  end.
End Regex.

(** [$]: the end of the text, or the position before a last newline. *)
Definition at_dollar (s : string) : bool :=
  match s with
  | EmptyString => true
  | String c EmptyString => is_newline c
  | _ => false
  end.

Definition is_char (a c : ascii) : bool := Ascii.eqb c a.

(** The pattern of line 75 at the start of [s]: one or more word
    characters (group 1), white space, a colon, white space, any characters
    but a newline (group 2), then [$].  Both groups are returned. *)
Definition kv_pattern (s : string) : option (string * string) :=
  re_one isword (fun c r0 =>
  re_star isword (fun w r1 =>
  re_star isspace (fun _ r2 =>
  re_one (is_char ":") (fun _ r3 =>
  re_star isspace (fun _ r4 =>
  re_star (fun x => negb (is_newline x)) (fun v r5 =>
    if at_dollar r5 then Some (String c w, v) else None
  ) r4) r3) r2) r1) r0) s.

(** [re.search] with that pattern: [None], or the groups of the match. *)
Definition search_kv (s : string) : option (string * string) :=
  re_search kv_pattern s.

(** *** [datetime.strptime(s, '%H:%M:%S,%f')]

    The format is compiled by the library to the pattern
    [H:M:S,f] with
    - H: [2[0-3]|[0-1]\d|\d],
    - M: [[0-5]\d|\d],
    - S: [6[0-1]|[0-5]\d|\d],
    - f: [[0-9]{1,6}],
    matched at the start of the text; text left over after the match, and
    a seconds value above 59, are rejected with [ValueError] as well. *)

Definition in_range (lo hi c : ascii) : bool :=
  (nat_of_ascii lo <=? nat_of_ascii c)%nat
  && (nat_of_ascii c <=? nat_of_ascii hi)%nat.

Section TimeRE.
Context {A : Type}.

Definition re_lit (a : ascii) (k : string -> option A) : string -> option A :=
  re_one (is_char a) (fun _ => k).

Definition re_2digits (p1 p2 : ascii -> bool) (k : Z -> string -> option A)
  : string -> option A :=
  re_one p1 (fun a => re_one p2 (fun b => k (10 * digit_val a + digit_val b))).

Definition re_1digit (k : Z -> string -> option A) : string -> option A :=
  re_one isdigit (fun a => k (digit_val a)).

Definition re_H (k : Z -> string -> option A) : string -> option A :=
  re_alt (re_2digits (is_char "2") (in_range "0" "3") k)
    (re_alt (re_2digits (in_range "0" "1") isdigit k) (re_1digit k)).

Definition re_M (k : Z -> string -> option A) : string -> option A :=
  re_alt (re_2digits (in_range "0" "5") isdigit k) (re_1digit k).

Definition re_S (k : Z -> string -> option A) : string -> option A :=
  re_alt (re_2digits (is_char "6") (in_range "0" "1") k)
    (re_alt (re_2digits (in_range "0" "5") isdigit k) (re_1digit k)).

Definition re_f (k : string -> string -> option A) : string -> option A :=
  re_one isdigit (fun a => re_upto 5 isdigit (fun m => k (String a m))).
End TimeRE.

(** The groups H, M, S, f of a match, and the text after it. *)
Definition hmsf_pattern (s : string) : option (Z * Z * Z * string * string) :=
  re_H (fun h =>
  re_lit ":" (
  re_M (fun m =>
  re_lit ":" (
  re_S (fun sec =>
  re_lit "," (
  re_f (fun f rest => Some (h, m, sec, f, rest)))))))) s.

(** The fields of a time of day. *)
Record time := {
  hour : Z;
  minute : Z;
  second : Z;
  microsecond : Z
}.

(** The fraction group, padded with zeros on the right to six digits. *)
Definition fraction_of (f : string) : Z :=
  let '(v, len, _) := digits_run 0 0 f in v * 10 ^ (6 - len).

Definition strptime_HMSf (v : pyval) : result time :=
  match v with
  | VStr s =>
      match hmsf_pattern s with
      | None => Raise ValueError
      | Some (h, m, sec, f, EmptyString) =>
          if 59 <? sec then Raise ValueError
          else Ok {| hour := h; minute := m; second := sec;
                     microsecond := fraction_of f |}
      | Some _ => Raise ValueError
      end
  | _ => Raise TypeError
  end.

(** *** [str.format]

    [str(z)] for an integer: its decimal digits, after a minus sign when it
    is negative; an integer of more digits than the limit is rejected. *)
Definition str_of_int (z : Z) : result string :=
  if 10 ^ Z.of_nat int_max_str_digits <=? Z.abs z then Raise ValueError
  else Ok (pretty z).

(** [format(v, '')]: what a replacement field without conversion and
    format specification inserts.  [float_repr] is the text of a float. *)
Definition format_val (float_repr : spec_float -> string) (v : pyval)
  : result string :=
  match v with
  | VStr s => Ok s
  | VInt z => str_of_int z
  | VFloat f => Ok (float_repr f)
  | VNone => Ok "None"
  end.

(** [template.format] with keyword arguments [kwargs], for a template made of literal text and of
    replacement fields that are a keyword in braces (no doubled braces, no
    conversion, no format specification, no attribute or index access: the
    templates of the module have none).  [field] is the part read so far of
    the field name when the scan is inside braces.  A missing keyword is a
    [KeyError]; a brace without its partner is a [ValueError]. *)
Fixpoint format_go (float_repr : spec_float -> string)
    (kwargs : gmap string pyval) (field : option string) (template : string)
  : result string :=
  match template with
  | EmptyString =>
      match field with
      | None => Ok EmptyString
      | Some _ => Raise ValueError
      end
  | String c rest =>
      match field with
      | None =>
          if Ascii.eqb c "{" then format_go float_repr kwargs (Some "") rest
          else if Ascii.eqb c "}" then Raise ValueError
          else do r <- format_go float_repr kwargs None rest;
               Ok (String c r)
      | Some name =>
          if Ascii.eqb c "}" then
            match kwargs !! name with
            | None => Raise KeyError
            | Some v =>
                do t <- format_val float_repr v;
                do r <- format_go float_repr kwargs None rest;
                Ok (t +:+ r)
            end
          else format_go float_repr kwargs (Some (name +:+ String c "")) rest
      end
  end.

Definition format (float_repr : spec_float -> string) (template : string)
    (kwargs : gmap string pyval) : result string :=
  format_go float_repr kwargs None template.

End Py.

Export Py.

(** ** Class [FFStream] *)

Module FFStream.

(** An instance: its identity (every constructor call makes a fresh object)
    and its attribute dictionary [__dict__]. *)
Record FFStream := {
  oid : nat;
  __dict__ : gmap string pyval
}.

(** [d.get(key, default)]. *)
Definition get (d : gmap string pyval) (key : string) (default : pyval)
  : pyval :=
  match d !! key with
  | Some v => v
  | None => default
  end.

(** [v.split('/')]: a method of [str] only. *)
Definition split_slash (v : pyval) : result (list string) :=
  match v with
  | VStr s => Ok (split "/" s)
  | _ => Raise AttributeError
  end.

(** [functools.reduce(operator.truediv, map(int, parts))] after its first
    element: each further part is converted, then divided by. *)
Fixpoint reduce_truediv (acc : pyval) (parts : list string) : result pyval :=
  match parts with
  | [] => Ok acc
  | p :: ps =>
      do b <- int_of_str p;
      do acc' <- truediv acc b;
      reduce_truediv acc' ps
  end.

(** The expression of lines 119-123. *)
Definition framerate_expr (d : gmap string pyval) : result pyval :=
  do parts <- split_slash (get d "avg_frame_rate" (VStr ""));
  match parts with
  | [] => Raise TypeError
  | p :: ps =>
      do a <- int_of_str p;
      do q <- reduce_truediv (VInt a) ps;
      py_round q
  end.

(** The [try] statement of lines 118-128. *)
Definition set_framerate (d : gmap string pyval) : result (gmap string pyval) :=
  match framerate_expr d with
  | Ok v => Ok (<["framerate" := v]> d)
  | Raise ValueError => Ok (<["framerate" := VNone]> d)
  | Raise ZeroDivisionError => Ok (<["framerate" := VInt 0]> d)
  | Raise e => Raise e
  end.

(** Line 116: the unpacking [key, value, *_] needs two parts at least. *)
Definition update_line (d : gmap string pyval) (line : string)
  : result (gmap string pyval) :=
  match split "=" (strip line) with
  | key :: value :: _ => Ok (<[key := VStr value]> d)
  | _ => Raise ValueError
  end.

(** The body of the loop of [__init__], and the loop. *)
Definition init_line (d : gmap string pyval) (line : string)
  : result (gmap string pyval) :=
  do d' <- update_line d line;
  set_framerate d'.

Fixpoint init_lines (d : gmap string pyval) (data_lines : list string)
  : result (gmap string pyval) :=
  match data_lines with
  | [] => Ok d
  | line :: rest => do d' <- init_line d line; init_lines d' rest
  end.

(** [FFStream(data_lines)]; [id] is the identity of the object made. *)
Definition __init__ (id : nat) (data_lines : list string) : result FFStream :=
  do d <- init_lines ∅ data_lines;
  Ok {| oid := id; __dict__ := d |}.

(** *** Method calls

    [self.name()], for a method [name] of the class.  The attribute is
    looked up on the instance before the class: line 116 stores every
    parsed field in the instance dictionary, whose values (text, [None], an
    integer) are not callable, so a field named [name] shadows the method
    and the call raises [TypeError].  Without such a field the method of
    the class runs. *)
Definition call {A} (name : string) (method : FFStream -> result A)
    (self : FFStream) : result A :=
  match __dict__ self !! name with
  | Some _ => Raise TypeError
  | None => method self
  end.

(** The same for a method that cannot raise. *)
Definition call_pure {A} (name : string) (method : FFStream -> A)
    (self : FFStream) : result A :=
  call name (fun s => Ok (method s)) self.

(** *** Kind predicates *)

Definition is_audio (self : FFStream) : bool :=
  eq_str (get (__dict__ self) "codec_type" VNone) "audio".

Definition is_video (self : FFStream) : bool :=
  eq_str (get (__dict__ self) "codec_type" VNone) "video".

Definition is_subtitle (self : FFStream) : bool :=
  eq_str (get (__dict__ self) "codec_type" VNone) "subtitle".

Definition is_attachment (self : FFStream) : bool :=
  eq_str (get (__dict__ self) "codec_type" VNone) "attachment".

(** [self.is_video() or self.is_audio()] (lines 214 and 229): the right
    operand is evaluated only when the left one is false. *)
Definition is_video_or_audio (self : FFStream) : result bool :=
  do v <- call_pure "is_video" is_video self;
  if v then Ok true else call_pure "is_audio" is_audio self.

(** *** Queries *)

(** Truth value of an object. *)
Definition truthy (v : pyval) : bool :=
  match v with
  | VStr s => negb (String.eqb s "")
  | VInt z => negb (z =? 0)
  | VFloat f => negb (is_zero f)
  | VNone => false
  end.

(** [d[key]]. *)
Definition getitem (d : gmap string pyval) (key : string) : result pyval :=
  match d !! key with
  | Some v => Ok v
  | None => Raise KeyError
  end.

(** [try: e except ValueError: raise FFProbeError(...)]. *)
Definition reraise {A} (m : result A) : result A :=
  match m with
  | Raise ValueError => Raise FFProbeError
  | r => r
  end.

Definition frame_size (self : FFStream) : result (option (Z * Z)) :=
  do video <- call_pure "is_video" is_video self;
  if video then
    do width <- getitem (__dict__ self) "width";
    do height <- getitem (__dict__ self) "height";
    if truthy width && truthy height then
      do wh <- reraise (do w <- py_int width; do h <- py_int height; Ok (w, h));
      Ok (Some wh)
    else Ok None
  else Ok None.

Definition aspect_ratio (self : FFStream) : pyval :=
  get (__dict__ self) "display_aspect_ratio" VNone.

Definition color_range (self : FFStream) : pyval :=
  get (__dict__ self) "color_range" VNone.

Definition pixel_format (self : FFStream) : pyval :=
  get (__dict__ self) "pix_fmt" VNone.

Definition frames (self : FFStream) : result Z :=
  do av <- is_video_or_audio self;
  if av then
    reraise (py_int (get (__dict__ self) "nb_frames" (VStr "")))
  else Ok 0.

(** Lines 235-236: whole seconds, converted to a float, plus the fraction. *)
Definition seconds_of (pt : time) : result spec_float :=
  do duration <- int_to_float (second pt + minute pt * 60 + hour pt * 3600);
  do million <- int_to_float 1000000;
  do us <- int_to_float (microsecond pt);
  do frac <- float_truediv us million;
  Ok (SFadd prec emax duration frac).

(** The local [duration] is assigned on every path but one: when both
    conversions fail and the two raw values are not both ["N/A"], line 247
    reads an unbound local. *)
Definition duration_seconds (self : FFStream) : result pyval :=
  do av <- is_video_or_audio self;
  if av then
    match py_float (get (__dict__ self) "duration" (VStr "")) with
    | Ok f => Ok (VFloat f)
    | Raise ValueError =>
        match (do pt <- strptime_HMSf
                          (get (__dict__ self) "TAG:DURATION" (VStr ""));
               seconds_of pt) with
        | Ok f => Ok (VFloat f)
        | Raise ValueError =>
            let durValue := get (__dict__ self) "duration" (VStr "") in
            let tDurValue := get (__dict__ self) "TAG:DURATION" (VStr "") in
            if eq_str durValue "N/A" && eq_str tDurValue "N/A"
            then Ok (VInt 0)
            else Raise UnboundLocalError
        | Raise e => Raise e
        end
    | Raise e => Raise e
    end
  else Ok (VFloat (S754_zero false)).

(** [language]: the lookup [Lang(code).name] of the [iso639] package is a
    parameter.  The result is the one-entry dictionary, as a pair. *)
Definition language (Lang_name : pyval -> result string) (self : FFStream)
  : result (pyval * string) :=
  let strLang := get (__dict__ self) "TAG:language" (VStr "Und") in
  if negb (eq_str strLang "und" || eq_str strLang "Und") then
    do name <- Lang_name strLang;
    Ok (strLang, name)
  else Ok (VStr "und", "Undefined").

Definition codec (self : FFStream) : pyval :=
  get (__dict__ self) "codec_name" VNone.

Definition audio_channels (self : FFStream) : result Z :=
  reraise (py_int (get (__dict__ self) "channels" (VStr ""))).

Definition stream_index (self : FFStream) : result Z :=
  reraise (py_int (get (__dict__ self) "index" (VStr ""))).

Definition channel_layout (self : FFStream) : pyval :=
  get (__dict__ self) "channel_layout" VNone.

Definition disposition_keys : list string :=
  ["default"; "dub"; "original"; "comment"; "lyrics"; "karaoke"; "forced";
   "hearing_impaired"; "visual_impaired"; "clean_effects"; "attached_pic";
   "timed_thumbnails"; "captions"; "descriptions"; "metadata"; "dependent";
   "still_image"].

Fixpoint fill_disposition (self : FFStream) (keys : list string)
    (disposition : gmap string Z) : result (gmap string Z) :=
  match keys with
  | [] => Ok disposition
  | i :: rest =>
      do v <- py_int (get (__dict__ self) ("DISPOSITION:" +:+ i) (VStr ""));
      fill_disposition self rest (<[i := v]> disposition)
  end.

Definition audio_channel_dispositions (self : FFStream)
  : result (gmap string Z) :=
  fill_disposition self disposition_keys ∅.

Definition codec_description (self : FFStream) : pyval :=
  get (__dict__ self) "codec_long_name" VNone.

Definition codec_tag (self : FFStream) : pyval :=
  get (__dict__ self) "codec_tag_string" VNone.

Definition bit_rate (self : FFStream) : result Z :=
  reraise (py_int (get (__dict__ self) "bit_rate" (VStr ""))).

Definition stream_bytes (self : FFStream) : result Z :=
  match py_int (get (__dict__ self) "TAG:NUMBER_OF_BYTES" (VStr "")) with
  | Raise ValueError => Ok 0
  | r => r
  end.

Definition stream_title (self : FFStream) : pyval :=
  get (__dict__ self) "TAG:title" (VStr "No title has been set").

(** *** [__repr__]

    [repr(self)], lines 130-144 (the special method is found on the class,
    so no field shadows it): the template depends on the kind, which the
    kind predicates give; its fields are looked up in the attribute
    dictionary. *)
Definition __repr__ (float_repr : spec_float -> string) (self : FFStream)
  : result string :=
  do template <-
    (do video <- call_pure "is_video" is_video self;
     if video then
       Ok "<Stream: #{index} [{codec_type}] {codec_long_name}, {framerate}, ({width}x{height})>"
     else
       do audio <- call_pure "is_audio" is_audio self;
       if audio then
         Ok ("<Stream: #{index} [{codec_type}] {codec_long_name}, channels: {channels} ({channel_layout}), "
             +:+ "{sample_rate}Hz> ")
       else
         do subtitle <- call_pure "is_subtitle" is_subtitle self;
         do sub_or_att <- (if subtitle then Ok true
                           else call_pure "is_attachment" is_attachment self);
         if sub_or_att then
           Ok "<Stream: #{index} [{codec_type}] {codec_long_name}>"
         else Ok "");
  format float_repr template (__dict__ self).

End FFStream.

Export FFStream.

(** ** Class [FFProbe] *)

Module FFProbe.

(** The locals and attributes that the block scan reads and writes:
    [stream], [data_lines] (unbound until the first opening marker) and
    [self.streams]. *)
Record blocks := {
  stream : bool;
  data_lines : option (list string);
  self_streams : list FFStream
}.

Definition blocks_init : blocks :=
  {| stream := false; data_lines := None; self_streams := [] |}.

(** Reading the local [data_lines]. *)
Definition read_data_lines (st : blocks) : result (list string) :=
  match data_lines st with
  | Some dl => Ok dl
  | None => Raise UnboundLocalError
  end.

(** Lines 50-58, and again lines 79-86.  The object made by [FFStream(..)]
    is appended to [self.streams] at once, and nothing else creates or
    removes stream objects: the n-th object made has identity n. *)
Definition block_step (st : blocks) (line : string) : result blocks :=
  if contains "[STREAM]" line then
    Ok {| stream := true; data_lines := Some [];
          self_streams := self_streams st |}
  else if contains "[/STREAM]" line && stream st then
    do dl <- read_data_lines st;
    do r <- FFStream.__init__ (length (self_streams st)) dl;
    Ok {| stream := false; data_lines := data_lines st;
          self_streams := self_streams st ++ [r] |}
  else if stream st then
    do dl <- read_data_lines st;
    Ok {| stream := true; data_lines := Some (dl ++ [line]);
          self_streams := self_streams st |}
  else Ok st.

(** The loop of lines 47-58 over the lines of the standard output. *)
Fixpoint stdout_loop (st : blocks) (lines : list string) : result blocks :=
  match lines with
  | [] => Ok st
  | line :: rest => do st' <- block_step st line; stdout_loop st' rest
  end.

(** The metadata scan: [self.metadata], [is_metadata] and
    [stream_metadata_met]. *)
Record meta := {
  self_metadata : gmap string string;
  is_metadata : bool;
  stream_metadata_met : bool
}.

Definition meta_init : meta :=
  {| self_metadata := ∅; is_metadata := false;
     stream_metadata_met := false |}.

(** Lines 74-77: [m.groups()] on a failed search is an attribute access on
    [None]. *)
Fixpoint add_segments (md : gmap string string) (splits : list string)
  : result (gmap string string) :=
  match splits with
  | [] => Ok md
  | s :: rest =>
      match search_kv s with
      | None => Raise AttributeError
      | Some (k, v) => add_segments (<[k := strip v]> md) rest
      end
  end.

(** Lines 67-77. *)
Definition metadata_step (m : meta) (line : string) : result meta :=
  if contains "Metadata:" line && negb (stream_metadata_met m) then
    Ok {| self_metadata := self_metadata m; is_metadata := true;
          stream_metadata_met := stream_metadata_met m |}
  else if contains "Stream #" line then
    Ok {| self_metadata := self_metadata m; is_metadata := false;
          stream_metadata_met := true |}
  else if is_metadata m then
    do md <- add_segments (self_metadata m) (split "," line);
    Ok {| self_metadata := md; is_metadata := is_metadata m;
          stream_metadata_met := stream_metadata_met m |}
  else Ok m.

(** The metadata part of the second loop alone. *)
Fixpoint metadata_loop (m : meta) (lines : list string) : result meta :=
  match lines with
  | [] => Ok m
  | line :: rest => do m' <- metadata_step m line; metadata_loop m' rest
  end.

(** The loop of lines 64-86 over the lines of the standard error: each
    line goes through the metadata scan, then through the block scan, which
    goes on from the state that the first loop left. *)
Definition stderr_step (st : blocks * meta) (line : string)
  : result (blocks * meta) :=
  do m' <- metadata_step (snd st) line;
  do b' <- block_step (fst st) line;
  Ok (b', m').

Fixpoint stderr_loop (st : blocks * meta) (lines : list string)
  : result (blocks * meta) :=
  match lines with
  | [] => Ok st
  | line :: rest => do st' <- stderr_step st line; stderr_loop st' rest
  end.

(** The attributes of an [FFProbe] instance that the parse fills. *)
Record FFProbe := {
  streams : list FFStream;
  video : list FFStream;
  audio : list FFStream;
  subtitle : list FFStream;
  attachment : list FFStream;
  metadata : gmap string string
}.

(** The four per-kind lists during the classification pass. *)
Record kinds := {
  k_video : list FFStream;
  k_audio : list FFStream;
  k_subtitle : list FFStream;
  k_attachment : list FFStream
}.

Definition kinds_init : kinds :=
  {| k_video := []; k_audio := []; k_subtitle := []; k_attachment := [] |}.

(** Lines 94-101: each test is a method call on the stream. *)
Definition classify_step (k : kinds) (s : FFStream) : result kinds :=
  do audio <- call_pure "is_audio" is_audio s;
  if audio then
    Ok {| k_video := k_video k; k_audio := k_audio k ++ [s];
          k_subtitle := k_subtitle k; k_attachment := k_attachment k |}
  else
    do video <- call_pure "is_video" is_video s;
    if video then
      Ok {| k_video := k_video k ++ [s]; k_audio := k_audio k;
            k_subtitle := k_subtitle k; k_attachment := k_attachment k |}
    else
      do subtitle <- call_pure "is_subtitle" is_subtitle s;
      if subtitle then
        Ok {| k_video := k_video k; k_audio := k_audio k;
              k_subtitle := k_subtitle k ++ [s];
              k_attachment := k_attachment k |}
      else
        do attachment <- call_pure "is_attachment" is_attachment s;
        if attachment then
          Ok {| k_video := k_video k; k_audio := k_audio k;
                k_subtitle := k_subtitle k;
                k_attachment := k_attachment k ++ [s] |}
        else Ok k.

(** The loop of line 93, from the lists [k]. *)
Fixpoint classify_loop (k : kinds) (l : list FFStream) : result kinds :=
  match l with
  | [] => Ok k
  | s :: rest => do k' <- classify_step k s; classify_loop k' rest
  end.

Definition classify (l : list FFStream) : result kinds :=
  classify_loop kinds_init l.

(** [FFProbe(path)] once the process runs: [out] and [err] are the lines
    read from its standard output and standard error. *)
Definition __init__ (out err : list string) : result FFProbe :=
  do b <- stdout_loop blocks_init out;
  do bm <- stderr_loop (b, meta_init) err;
  do k <- classify (self_streams (fst bm));
  Ok {| streams := self_streams (fst bm);
        video := k_video k;
        audio := k_audio k;
        subtitle := k_subtitle k;
        attachment := k_attachment k;
        metadata := self_metadata (snd bm) |}.

End FFProbe.

Export FFProbe.

(** ** Specification-side definitions *)

(** *** Delimited regions of a line sequence (section 4.1 of the design)

    A line opens a block when it contains the opening marker; it closes one
    when it contains the closing marker and not the opening one; it is plain
    when it contains neither. *)
Definition opens (line : string) : bool := contains "[STREAM]" line.

Definition closes (line : string) : bool :=
  contains "[/STREAM]" line && negb (opens line).

Definition plain (line : string) : bool :=
  negb (opens line) && negb (contains "[/STREAM]" line).

(** What follows an opening line and plain lines when no closing line does:
    the end of the input or another opening line. *)
Definition reopens (lines : list string) : Prop :=
  match lines with
  | [] => True
  | l :: _ => opens l = true
  end.

(** [Regions lines bodies]: [bodies] are the contents of the well-formed
    regions of [lines] (an opening line, plain lines, a closing line), in
    the order of the input.  Lines before an opening line that do not open a
    block lie outside of every region; an opening line whose plain lines
    are not followed by a closing line starts no region. *)
Inductive Regions : list string -> list (list string) -> Prop :=
| Regions_end : Regions [] []
| Regions_outside l ls bs :
    opens l = false -> Regions ls bs -> Regions (l :: ls) bs
| Regions_block o body c ls bs :
    opens o = true -> Forall (fun l => plain l = true) body ->
    closes c = true -> Regions ls bs ->
    Regions (o :: body ++ c :: ls) (body :: bs)
| Regions_unclosed o body ls bs :
    opens o = true -> Forall (fun l => plain l = true) body ->
    reopens ls -> Regions ls bs ->
    Regions (o :: body ++ ls) bs.

(** One record per body, in order; [next] is the identity of the first. *)
Fixpoint build_all (next : nat) (bodies : list (list string))
  : result (list FFStream) :=
  match bodies with
  | [] => Ok []
  | b :: bs =>
      do r <- FFStream.__init__ next b;
      do rs <- build_all (S next) bs;
      Ok (r :: rs)
  end.

(** The bodies that the scan completes, from the scan state [cur] (the
    lines accumulated in an open block, if one is open). *)
Fixpoint regions_of (cur : option (list string)) (lines : list string)
  : list (list string) :=
  match lines with
  | [] => []
  | l :: ls =>
      if opens l then regions_of (Some []) ls
      else if contains "[/STREAM]" l then
        match cur with
        | Some b => b :: regions_of None ls
        | None => regions_of None ls
        end
      else
        match cur with
        | Some b => regions_of (Some (b ++ [l])) ls
        | None => regions_of None ls
        end
  end.

(** The list [self.streams] after the first loop. *)
Definition parse_blocks (lines : list string) : result (list FFStream) :=
  do st <- stdout_loop blocks_init lines; Ok (self_streams st).

(** The open block of a scan state, if any. *)
Definition cur_of (st : blocks) : option (list string) :=
  if stream st then data_lines st else None.

(** [data_lines] is bound whenever a block is open. *)
Definition bound (st : blocks) : Prop :=
  stream st = true -> data_lines st <> None.

(** *** The partition of the streams by kind *)

(** The value of the [codec_type] attribute is the literal [kind]. *)
Definition has_kind (kind : string) (r : FFStream) : Prop :=
  __dict__ r !! "codec_type" = Some (VStr kind).

(** The record occurs in the list at exactly one position. *)
Definition occurs_once (r : FFStream) (l : list FFStream) : Prop :=
  exists i, l !! i = Some r /\ forall j, l !! j = Some r -> j = i.

Definition disjoint (l1 l2 : list FFStream) : Prop :=
  forall r, In r l1 -> In r l2 -> False.

(** Identities are positions in [self.streams]. *)
Definition ids_ok (l : list FFStream) : Prop :=
  forall i r, l !! i = Some r -> oid r = i.

(** The scan state once the stream marker has been met. *)
Definition finished (m : meta) : meta :=
  {| self_metadata := self_metadata m; is_metadata := false;
     stream_metadata_met := true |}.

(** *** Methods that a field does not shadow *)

(** No field of the record is named like one of the methods [names]: a
    call of one of them runs the method of the class. *)
Definition unshadowed (names : list string) (self : FFStream) : Prop :=
  Forall (fun name => __dict__ self !! name = None) names.

(** *** The derived frame rate *)

(** The [framerate] attribute as the design has it: an integer, or absent
    (the attribute is missing or holds [None]). *)
Definition framerate (self : FFStream) : option Z :=
  match __dict__ self !! "framerate" with
  | Some (VInt z) => Some z
  | _ => None
  end.

(** A float that is a number: a zero or a finite value. *)
Definition is_number (f : spec_float) : bool :=
  match f with
  | S754_zero _ | S754_finite _ _ _ => true
  | _ => false
  end.

(** [z] is the integer nearest to the fraction [num / den] of positive
    denominator, and the even one of the two nearest when the fraction lies
    half way between them. *)
Definition nearest_integer (num den z : Z) : Prop :=
  2 * Z.abs (z * den - num) <= den
  /\ (2 * Z.abs (z * den - num) = den -> Z.even z = true).

(** [z] is the number [f], a float, rounded to the nearest integer, ties
    to even: a finite float is the fraction [m * 2 ^ e] with its sign. *)
Definition float_rounds_to (f : spec_float) (z : Z) : Prop :=
  match f with
  | S754_zero _ => z = 0
  | S754_finite neg m e =>
      let sm := if neg then - Z.pos m else Z.pos m in
      if 0 <=? e then z = sm * 2 ^ e
      else nearest_integer sm (2 ^ (- e)) z
  | _ => False
  end.

(** *** Durations *)

(** The seconds of a time of day as lines 235-236 compute them: the whole
    seconds as a float, plus the microseconds divided by a million. *)
Definition seconds_value (pt : time) : spec_float :=
  SFadd prec emax
    (float_of_Z (second pt + minute pt * 60 + hour pt * 3600))
    (SFdiv prec emax (float_of_Z (microsecond pt)) (float_of_Z 1000000)).

(** The fields of a valid time of day. *)
Definition time_in_range (pt : time) : Prop :=
  0 <= hour pt <= 23 /\ 0 <= minute pt <= 59 /\ 0 <= second pt <= 59
  /\ 0 <= microsecond pt < 1000000.

(** Every character of the text satisfies [p]. *)
Fixpoint all_chars (p : ascii -> bool) (s : string) : bool :=
  match s with
  | EmptyString => true
  | String c s' => p c && all_chars p s'
  end.

(** *** Sample inputs *)

(** The lines as [readline] returns them: each ends with a newline. *)
Definition readlines (l : list string) : list string :=
  map (fun s => s +:+ String "010" EmptyString) l.

(** The output of [ffprobe -show_streams] for a file with a video and an
    audio track. *)
Definition sample_out : list string :=
  readlines
    ["[STREAM]"; "index=0"; "codec_name=h264"; "codec_type=video";
     "width=1920"; "height=1080"; "avg_frame_rate=30000/1001";
     "duration=12.500000"; "nb_frames=375"; "[/STREAM]";
     "[STREAM]"; "index=1"; "codec_name=aac"; "codec_type=audio";
     "channels=2"; "avg_frame_rate=0/0"; "duration=N/A";
     "TAG:DURATION=N/A"; "TAG:language=eng"; "[/STREAM]"].

(** The head of the diagnostic output, up to the first stream line. *)
Definition sample_err_head : list string :=
  readlines
    ["Input #0, mov,mp4,m4a,3gp,3g2,mj2, from 'a.mp4':";
     "  Metadata:";
     "    title           : My Movie";
     "    encoder         : Lavf58.29.100";
     "  Duration: 00:00:12.50, start: 0.000000, bitrate: 1589 kb/s"].

Definition sample_err_stream : string :=
  "    Stream #0:0(und): Video: h264 (High), yuv420p, 1920x1080"
  +:+ String "010" EmptyString.

Definition sample_err_tail : list string :=
  readlines
    ["    Metadata:";
     "      handler_name    : VideoHandler";
     "    Stream #0:1(eng): Audio: aac (LC), 48000 Hz, stereo";
     "    Metadata:";
     "      handler_name    : SoundHandler"].

Definition sample_err : list string :=
  sample_err_head ++ sample_err_stream :: sample_err_tail.

(** A stream block with a nested side-data section, as the probing tool
    prints it for a rotated video. *)
Definition side_data_out : list string :=
  readlines
    ["[STREAM]"; "index=0"; "codec_type=video"; "[SIDE_DATA]";
     "side_data_type=Display Matrix"; "rotation=-90"; "[/SIDE_DATA]";
     "[/STREAM]";
     "[STREAM]"; "index=1"; "codec_type=audio"; "[/STREAM]"].

(** A metadata section in which a value contains a comma. *)
Definition comma_err : list string :=
  readlines
    ["  Metadata:";
     "    title           : Hello, world";
     "    encoder         : Lavf58.29.100";
     "    Stream #0:0: Video: h264"].

(** Diagnostic lines that contain a stream block. *)
Definition block_err : list string :=
  readlines ["[STREAM]"; "index=7"; "codec_type=video"; "[/STREAM]"].

(** A metadata section with a header line that also holds the stream
    marker. *)
Definition header_with_marker : string := "  Metadata: Stream #0".

Definition marker_err : list string :=
  ["  Metadata:"; header_with_marker; "    title : x"].

(** *** The attribute dictionary of a constructed record *)

(** What the constructor stores under a name: text, except under
    [framerate], where it stores [None] or an integer. *)
Definition attr_ok (k : string) (v : pyval) : Prop :=
  if String.eqb k "framerate" then v = VNone \/ exists z, v = VInt z
  else exists s, v = VStr s.

Definition attrs_ok (d : gmap string pyval) : Prop :=
  forall k v, d !! k = Some v -> attr_ok k v.










(** *** Results of the queries *)


(** The record has a field of this name, which shadows the method of the
    same name. *)
Definition has_field (name : string) (self : FFStream) : bool :=
  match __dict__ self !! name with Some _ => true | None => false end.




(** The integer of the field of a disposition flag. *)
Definition disposition_field (self : FFStream) (i : string) : result Z :=
  py_int (get (__dict__ self) ("DISPOSITION:" +:+ i) (VStr "")).





(** *** The metadata entries *)

Definition not_newline (c : ascii) : bool := negb (is_newline c).

(** Leading characters of the class [p]: none. *)
Definition no_lead (p : ascii -> bool) (s : string) : Prop :=
  match s with
  | EmptyString => True
  | String c _ => p c = false
  end.

(** What the scan stores: a key of word characters, a value without white
    space at its ends, without comma and without newline. *)
Definition entry_ok (k v : string) : Prop :=
  k <> "" /\ all_chars isword k = true
  /\ strip v = v /\ contains "," v = false /\ all_chars not_newline v = true.

Definition entries_ok (md : gmap string string) : Prop :=
  forall k v, md !! k = Some v -> entry_ok k v.

(** The key that a segment sets, if the pattern matches it. *)
Definition segment_key (s : string) : option string :=
  option_map fst (search_kv s).

(** *** Further sample inputs *)


(** The lines of the seventeen disposition flags, all 0. *)
Definition sample_dispositions : list string :=
  map (fun i => "DISPOSITION:" +:+ i +:+ "=0") disposition_keys.

(** The object that the parse of inputs without markers gives. *)
Definition empty_probe : FFProbe :=
  {| streams := []; video := []; audio := []; subtitle := [];
     attachment := []; metadata := ∅ |}.

(** The output of the probing tool for a file that it cannot read. *)
Definition failed_err : list string :=
  readlines
    ["ffprobe version 4.2.7 Copyright (c) 2007-2022 the FFmpeg developers";
     "a.mp4: Invalid data found when processing input"].

(** * Properties *)

(** ** Results *)

Lemma bind_ok {A B} (m : result A) (k : A -> result B) b :
  bind m k = Ok b -> exists a, m = Ok a /\ k a = Ok b.
Proof. destruct m; simpl; [eauto | discriminate]. Qed.

Lemma is_ok_inv {A} (m : result A) : is_ok m = true -> exists a, m = Ok a.
Proof. destruct m; simpl; [eauto | discriminate]. Qed.

(** Reading a component of the result of a computation that succeeds. *)
Lemma run_ok {A B} (m : result A) (f : A -> B) (b : B) (a : A) :
  (do x <- m; Ok (f x)) = Ok b -> m = Ok a -> f a = b.
Proof. intros H E. rewrite E in H. simpl in H. now injection H. Qed.

(** Proves a goal [f r = b] about the result [r] of a closed computation,
    given [E : m = Ok r], by evaluating [f] on the result of [m]. *)
Ltac run E :=
  match type of E with
  | ?m = Ok ?r =>
      match goal with
      | |- ?lhs = ?b =>
          let f := eval pattern r in lhs in
          match f with
          | ?g r => refine (run_ok m g b r _ E); vm_compute; reflexivity
          end
      end
  end.

(** ** Strings *)

Lemma prefix_empty s : String.prefix "" s = true.
Proof. now destruct s. Qed.

Lemma contains_char_cons (c x : ascii) (s : string) :
  contains (String c "") (String x s)
  = Ascii.eqb x c || contains (String c "") s.
Proof.
  simpl. rewrite prefix_empty.
  destruct (ascii_dec c x) as [->|Hne].
  - now rewrite Ascii.eqb_refl.
  - apply Ascii.eqb_neq in Hne. rewrite Ascii.eqb_sym in Hne. now rewrite Hne.
Qed.

Lemma split_no_sep (c : ascii) (s : string) :
  contains (String c "") s = false -> split c s = [s].
Proof.
  induction s as [|x s IH]; [reflexivity|].
  rewrite contains_char_cons. intros H. apply orb_false_iff in H as [H1 H2].
  simpl. now rewrite H1, (IH H2).
Qed.

Lemma split_app (c : ascii) (a b : string) :
  contains (String c "") a = false ->
  split c (a +:+ String c b) = a :: split c b.
Proof.
  induction a as [|x a IH].
  - intros _. simpl. now rewrite Ascii.eqb_refl.
  - rewrite contains_char_cons. intros H. apply orb_false_iff in H as [H1 H2].
    simpl. now rewrite H1, (IH H2).
Qed.

Lemma lstrip_no_char p c s :
  contains (String c "") s = false ->
  contains (String c "") (lstrip_by p s) = false.
Proof.
  induction s as [|x s IH]; [easy|].
  intros H. simpl lstrip_by. destruct (p x); [|assumption].
  rewrite contains_char_cons in H. apply orb_false_iff in H as [_ H]. auto.
Qed.

Lemma rstrip_no_char p c s :
  contains (String c "") s = false ->
  contains (String c "") (rstrip_by p s) = false.
Proof.
  induction s as [|x s IH]; [easy|].
  rewrite contains_char_cons. intros H. apply orb_false_iff in H as [H1 H2].
  specialize (IH H2). simpl rstrip_by. destruct (rstrip_by p s) as [|y r].
  - destruct (p x); [reflexivity|].
    rewrite contains_char_cons. now rewrite H1.
  - rewrite contains_char_cons. now rewrite H1, IH.
Qed.

(** ** Floating point: quotients are numbers *)

Lemma shr_1_nonneg mrs : 0 <= shr_m mrs -> 0 <= shr_m (shr_1 mrs).
Proof.
  destruct mrs as [m r s]. simpl.
  destruct m as [|p|p]; [easy | | lia]. destruct p; simpl; lia.
Qed.

Lemma iter_pos_shr_1_nonneg n : forall mrs,
  0 <= shr_m mrs -> 0 <= shr_m (SpecFloat.iter_pos shr_1 n mrs).
Proof.
  induction n as [n IH|n IH|]; intros mrs H; simpl.
  - apply IH, IH, shr_1_nonneg, H.
  - apply IH, IH, H.
  - apply shr_1_nonneg, H.
Qed.

Lemma shr_fexp_nonneg m e l :
  0 <= m -> 0 <= shr_m (fst (shr_fexp prec emax m e l)).
Proof.
  intros H. unfold shr_fexp, shr.
  assert (H0 : 0 <= shr_m (shr_record_of_loc m l))
    by (destruct l as [|[]]; exact H).
  destruct (_ - e); simpl; auto using iter_pos_shr_1_nonneg.
Qed.

Lemma round_nearest_even_nonneg m l : 0 <= m -> 0 <= round_nearest_even m l.
Proof.
  intros H. destruct l as [|[]]; simpl; try lia.
  destruct (Z.even m); lia.
Qed.

Lemma binary_round_aux_not_nan neg mx ex lx :
  0 <= mx ->
  is_number (binary_round_aux prec emax neg mx ex lx)
  || is_infinity (binary_round_aux prec emax neg mx ex lx) = true.
Proof.
  intros H. unfold binary_round_aux.
  pose proof (shr_fexp_nonneg mx ex lx H) as H1.
  destruct (shr_fexp prec emax mx ex lx) as [mrs' e']. simpl in H1.
  pose proof (shr_fexp_nonneg _ e' loc_Exact
                (round_nearest_even_nonneg _ (loc_of_shr_record mrs') H1)) as H2.
  destruct (shr_fexp prec emax _ e' loc_Exact) as [mrs'' e'']. simpl in H2.
  destruct (shr_m mrs'') as [|p|p]; [reflexivity | | lia].
  now destruct (e'' <=? emax - prec).
Qed.

Lemma round_quotient_not_nan neg a b :
  0 <= a -> 0 < b ->
  is_number (round_quotient neg a b) || is_infinity (round_quotient neg a b) = true.
Proof.
  intros Ha Hb. unfold round_quotient, SFdiv_core_binary.
  set (s := _ - _ - _).
  set (m' := match s with Z.pos _ => Z.shiftl a s | 0 => a | Z.neg _ => 0 end).
  assert (Hm : 0 <= m').
  { subst m'. destruct s; try lia. apply Z.shiftl_nonneg. exact Ha. }
  pose proof (Z.div_pos m' b Hm Hb) as Hq. unfold Z.div in Hq.
  destruct (Z.div_eucl m' b) as [q r]. simpl in Hq.
  now apply binary_round_aux_not_nan.
Qed.

(** A quotient of integers is a number, unless it overflows. *)
Lemma int_truediv_cases a b :
  b <> 0 ->
  (exists f, int_truediv a b = Ok f /\ is_number f = true)
  \/ int_truediv a b = Raise OverflowError.
Proof.
  intros Hb. unfold int_truediv.
  destruct (b =? 0) eqn:E; [apply Z.eqb_eq in E; contradiction|].
  destruct (a =? 0) eqn:Ea; [left; eauto|]. apply Z.eqb_neq in Ea.
  pose proof (round_quotient_not_nan (xorb (a <? 0) (b <? 0)) (Z.abs a) (Z.abs b))
    as H.
  destruct (is_infinity _) eqn:Ei; [now right|]. left.
  eexists. split; [reflexivity|]. rewrite orb_false_r in H. apply H; lia.
Qed.

Lemma py_round_number f :
  is_number f = true -> exists z, py_round (VFloat f) = Ok (VInt z).
Proof. destruct f; simpl; try discriminate; eauto. Qed.

(** Rounding the quotient [num / den] half to even gives the nearest
    integer. *)
Lemma round_half_even_nearest num den :
  0 < den -> nearest_integer num den (round_half_even num den).
Proof.
  intros Hd. unfold nearest_integer, round_half_even.
  pose proof (Z.div_mod num den ltac:(lia)) as E.
  pose proof (Z.mod_pos_bound num den Hd) as B.
  set (q := num / den) in *. set (r := num mod den) in *.
  destruct (Z.compare_spec (2 * r) den) as [H|H|H].
  - destruct (Z.even q) eqn:Eq.
    + split; [nia | auto].
    + split; [nia|]. intros _. rewrite Z.even_add, Eq. reflexivity.
  - split; [nia | nia].
  - split; [nia | nia].
Qed.

Lemma nearest_integer_opp num den z :
  nearest_integer num den z -> nearest_integer (- num) den (- z).
Proof.
  unfold nearest_integer.
  replace (- z * den - - num) with (- (z * den - num)) by ring.
  now rewrite Z.abs_opp, Z.even_opp.
Qed.

(** [round] on a float gives the nearest integer, ties to even. *)
Lemma py_round_nearest f z :
  py_round (VFloat f) = Ok (VInt z) -> float_rounds_to f z.
Proof.
  destruct f as [sg|sg| |neg m e]; simpl; try discriminate.
  - now intros [= <-].
  - intros [= <-]. destruct (0 <=? e) eqn:He.
    + destruct neg; ring.
    + apply Z.leb_gt in He.
      assert (Hp : 0 < 2 ^ (- e)) by (apply Z.pow_pos_nonneg; lia).
      pose proof (round_half_even_nearest (Z.pos m) _ Hp) as H.
      destruct neg; [now apply nearest_integer_opp | assumption].
Qed.

Lemma py_round_int x v : py_round x = Ok v -> exists z, v = VInt z.
Proof.
  destruct x as [s|z|f|]; simpl; try discriminate.
  - intros [= <-]. eauto.
  - destruct f; try discriminate; intros [= <-]; eauto.
Qed.

(** ** Floating point: small integers convert without overflow *)

Lemma digits2_pos_size p : digits2_pos p = Pos.size p.
Proof. induction p; simpl; congruence. Qed.

Lemma Zdigits2_bound m k :
  0 <= k -> 0 <= m < 2 ^ k -> Zdigits2 m <= k.
Proof.
  intros Hk [H0 Hm]. destruct m as [|p|p]; simpl; [assumption | | lia].
  rewrite digits2_pos_size.
  destruct (Z_le_gt_dec (Z.pos (Pos.size p)) k) as [|Hgt]; [assumption|].
  exfalso. pose proof (Pos.size_le p) as Hs.
  assert (2 ^ (k + 1) <= 2 ^ Z.pos (Pos.size p))
    by (apply Z.pow_le_mono_r; lia).
  rewrite Z.pow_add_r in H by lia.
  assert (2 ^ Z.pos (Pos.size p) <= Z.pos p~0).
  { rewrite <- Pos2Z.inj_pow. apply Pos2Z.pos_le_pos. exact Hs. }
  lia.
Qed.

Lemma shr_1_le mrs : 0 <= shr_m mrs -> shr_m (shr_1 mrs) <= shr_m mrs.
Proof.
  destruct mrs as [m r s]. simpl.
  destruct m as [|p|p]; [easy | | lia]. destruct p; simpl; lia.
Qed.

Lemma iter_pos_shr_1_le n : forall mrs,
  0 <= shr_m mrs -> shr_m (SpecFloat.iter_pos shr_1 n mrs) <= shr_m mrs.
Proof.
  induction n as [n IH|n IH|]; intros mrs H; simpl.
  - pose proof (shr_1_nonneg mrs H). pose proof (shr_1_le mrs H).
    pose proof (IH _ H0). pose proof (iter_pos_shr_1_nonneg n _ H0).
    pose proof (IH _ H3). lia.
  - pose proof (IH _ H). pose proof (iter_pos_shr_1_nonneg n _ H).
    pose proof (IH _ H1). lia.
  - now apply shr_1_le.
Qed.

(** One rounding step: the mantissa does not grow, the exponent is the
    larger of the old one and the canonical one. *)
Lemma shr_fexp_bounds m e l k :
  0 <= k -> 0 <= m < 2 ^ k ->
  let '(mrs, e') := shr_fexp prec emax m e l in
  0 <= shr_m mrs <= m /\ e' <= Z.max e (Z.max (k + e - prec) (3 - emax - prec)).
Proof.
  intros Hk Hm. unfold shr_fexp, shr.
  assert (H0 : shr_m (shr_record_of_loc m l) = m)
    by (destruct l as [|[]]; reflexivity).
  pose proof (Zdigits2_bound m k Hk Hm) as Hd.
  unfold fexp, emin.
  destruct (Z.max (Zdigits2 m + e - prec) (3 - emax - prec) - e) as [|n|n] eqn:En.
  - rewrite H0. lia.
  - split; [|lia].
    pose proof (iter_pos_shr_1_nonneg n (shr_record_of_loc m l)).
    pose proof (iter_pos_shr_1_le n (shr_record_of_loc m l)). lia.
  - rewrite H0. lia.
Qed.

Lemma round_nearest_even_le m l : round_nearest_even m l <= m + 1.
Proof. destruct l as [|[]]; simpl; try lia. destruct (Z.even m); lia. Qed.

(** Rounding a small mantissa with a non-positive exponent does not
    overflow. *)
Lemma binary_round_aux_small neg mx ex lx :
  0 <= mx < 2 ^ 53 -> ex <= 0 ->
  is_infinity (binary_round_aux prec emax neg mx ex lx) = false.
Proof.
  intros Hm He. unfold binary_round_aux.
  pose proof (shr_fexp_bounds mx ex lx 53 ltac:(lia) Hm) as H1.
  destruct (shr_fexp prec emax mx ex lx) as [mrs' e']. destruct H1 as [H1 H1'].
  set (m2 := round_nearest_even (shr_m mrs') (loc_of_shr_record mrs')).
  assert (H2 : 0 <= m2 < 2 ^ 54).
  { pose proof (round_nearest_even_nonneg (shr_m mrs') (loc_of_shr_record mrs')).
    pose proof (round_nearest_even_le (shr_m mrs') (loc_of_shr_record mrs')).
    change (2 ^ 54) with (2 * 2 ^ 53). subst m2. lia. }
  pose proof (shr_fexp_bounds m2 e' loc_Exact 54 ltac:(lia) H2) as H3.
  destruct (shr_fexp prec emax m2 e' loc_Exact) as [mrs'' e''].
  destruct H3 as [_ H3]. unfold prec, emax in *.
  destruct (shr_m mrs''); try reflexivity.
  destruct (e'' <=? 1024 - 53) eqn:E; [reflexivity|].
  apply Z.leb_gt in E. lia.
Qed.

Lemma Pos_iter_xO p k : Z.pos (Pos.iter xO p k) = Z.pos p * 2 ^ Z.pos k.
Proof.
  induction k as [|k IH] using Pos.peano_ind.
  - simpl. lia.
  - rewrite Pos.iter_succ, Pos2Z.inj_xO, IH, Pos2Z.inj_succ, Z.pow_succ_r; lia.
Qed.

Lemma float_of_Z_small z :
  0 <= z < 2 ^ 53 -> is_infinity (float_of_Z z) = false.
Proof.
  intros Hz. unfold float_of_Z, binary_normalize.
  destruct z as [|p|p]; [reflexivity | | lia].
  unfold binary_round, shl_align, fexp, emin, prec, emax.
  rewrite digits2_pos_size.
  pose proof (Pos.size_gt p) as Hgt. apply Pos2Z.pos_lt_pos in Hgt.
  rewrite Pos2Z.inj_pow in Hgt.
  assert (Hs : Z.pos (Pos.size p) <= 53).
  { pose proof (Zdigits2_bound (Z.pos p) 53 ltac:(lia) Hz) as H.
    simpl in H. now rewrite digits2_pos_size in H. }
  replace (Z.max (Z.pos (Pos.size p) + 0 - 53) (3 - 1024 - 53))
    with (Z.pos (Pos.size p) - 53) by lia.
  destruct (Z.pos (Pos.size p) - 53 - 0) as [|n|n] eqn:En; try lia.
  - apply (binary_round_aux_small false (Z.pos p) 0 loc_Exact); lia.
  - apply (binary_round_aux_small false); [|lia].
    rewrite Pos_iter_xO. split; [lia|].
    assert (Z.pos n = 53 - Z.pos (Pos.size p)) as -> by lia.
    replace (2 ^ 53) with (2 ^ Z.pos (Pos.size p) * 2 ^ (53 - Z.pos (Pos.size p))).
    + apply Z.mul_lt_mono_pos_r; [apply Z.pow_pos_nonneg; lia | exact Hgt].
    + rewrite <- Z.pow_add_r by lia. f_equal. lia.
Qed.

Lemma int_to_float_small z :
  0 <= z < 2 ^ 53 -> int_to_float z = Ok (float_of_Z z).
Proof.
  intros Hz. unfold int_to_float. now rewrite float_of_Z_small.
Qed.

Lemma seconds_of_in_range pt :
  time_in_range pt -> seconds_of pt = Ok (seconds_value pt).
Proof.
  intros (Hh & Hm & Hs & Hu). unfold seconds_of, seconds_value.
  rewrite !int_to_float_small by lia. reflexivity.
Qed.

(** ** What a match of the time pattern gives *)

Section MatcherFacts.
Context {A : Type}.
Implicit Types (x : A) (s : string).

Lemma re_one_inv p (k : ascii -> string -> option A) s x :
  re_one p k s = Some x -> exists c s', p c = true /\ k c s' = Some x.
Proof.
  destruct s as [|c s']; simpl; [discriminate|].
  destruct (p c) eqn:E; [eauto | discriminate].
Qed.

Lemma re_alt_inv (r1 r2 : string -> option A) s x :
  re_alt r1 r2 s = Some x -> r1 s = Some x \/ r2 s = Some x.
Proof. unfold re_alt. destruct (r1 s); [left | right]; assumption. Qed.

Lemma re_upto_inv n p : forall (k : string -> string -> option A) s x,
  re_upto n p k s = Some x ->
  exists m r, k m r = Some x /\ all_chars p m = true
              /\ (String.length m <= n)%nat.
Proof.
  induction n as [|n IH]; intros k s x H; simpl in H.
  - exists "", s. repeat split; auto.
  - destruct s as [|c s'].
    + exists "", "". repeat split; auto. simpl. lia.
    + destruct (p c) eqn:E.
      * destruct (re_upto n p _ s') as [a|] eqn:R.
        -- injection H as ->. apply IH in R as (m & r & Hk & Hp & Hl).
           exists (String c m), r. simpl. rewrite E, Hp.
           repeat split; auto. lia.
        -- exists "", (String c s'). repeat split; auto. simpl. lia.
      * exists "", (String c s'). repeat split; auto. simpl. lia.
Qed.

Lemma isdigit_val c : isdigit c = true -> 0 <= digit_val c <= 9.
Proof. unfold isdigit, digit_val. lia. Qed.

Lemma is_char_val (a c : ascii) :
  is_char a c = true -> digit_val a <= digit_val c <= digit_val a.
Proof. unfold is_char. intros H. apply Ascii.eqb_eq in H. subst. lia. Qed.

Lemma in_range_val (lo hi c : ascii) :
  in_range lo hi c = true -> digit_val lo <= digit_val c <= digit_val hi.
Proof.
  unfold in_range, digit_val. intros H.
  apply andb_true_iff in H as [H1 H2]. apply Nat.leb_le in H1, H2. lia.
Qed.

(** Two characters of two classes of digits: the value lies between the
    bounds that the classes give. *)
Lemma re_2digits_inv p1 p2 (k : Z -> string -> option A) s x lo1 hi1 lo2 hi2 :
  (forall c, p1 c = true -> lo1 <= digit_val c <= hi1) ->
  (forall c, p2 c = true -> lo2 <= digit_val c <= hi2) ->
  re_2digits p1 p2 k s = Some x ->
  exists v s', 10 * lo1 + lo2 <= v <= 10 * hi1 + hi2 /\ k v s' = Some x.
Proof.
  intros H1 H2 H. unfold re_2digits in H.
  apply re_one_inv in H as (a & s1 & Ha & H).
  apply re_one_inv in H as (b & s2 & Hb & H).
  pose proof (H1 a Ha). pose proof (H2 b Hb).
  eexists _, s2. split; [|exact H]. lia.
Qed.

Lemma re_1digit_inv (k : Z -> string -> option A) s x :
  re_1digit k s = Some x -> exists v s', 0 <= v <= 9 /\ k v s' = Some x.
Proof.
  intros H. unfold re_1digit in H. apply re_one_inv in H as (a & s1 & Ha & H).
  pose proof (isdigit_val a Ha). eexists _, s1. split; [|exact H]. lia.
Qed.

Lemma re_lit_inv a (k : string -> option A) s x :
  re_lit a k s = Some x -> exists s', k s' = Some x.
Proof.
  intros H. unfold re_lit in H. apply re_one_inv in H as (c & s' & _ & H). eauto.
Qed.

(** The bounds of a class of digits. *)
Ltac class_bounds :=
  intros ? ?;
  first [ eapply is_char_val; eassumption
        | eapply in_range_val; eassumption
        | eapply isdigit_val; eassumption ].

(** The value that an alternative of two digits passes on. *)
Ltac two_digits H :=
  eapply re_2digits_inv in H; [ | class_bounds | class_bounds ];
  destruct H as (v & s' & Hv & H); exists v, s';
  change (digit_val "0") with 0 in Hv; change (digit_val "1") with 1 in Hv;
  change (digit_val "2") with 2 in Hv; change (digit_val "3") with 3 in Hv;
  change (digit_val "5") with 5 in Hv; change (digit_val "6") with 6 in Hv;
  split; [lia | exact H].

Ltac one_digit H :=
  apply re_1digit_inv in H; destruct H as (v & s' & Hv & H); exists v, s';
  split; [lia | exact H].

Lemma re_H_inv (k : Z -> string -> option A) s x :
  re_H k s = Some x -> exists v s', 0 <= v <= 23 /\ k v s' = Some x.
Proof.
  intros H. unfold re_H in H.
  apply re_alt_inv in H as [H|H]; [two_digits H|].
  apply re_alt_inv in H as [H|H]; [two_digits H | one_digit H].
Qed.

Lemma re_M_inv (k : Z -> string -> option A) s x :
  re_M k s = Some x -> exists v s', 0 <= v <= 59 /\ k v s' = Some x.
Proof.
  intros H. unfold re_M in H.
  apply re_alt_inv in H as [H|H]; [two_digits H | one_digit H].
Qed.

Lemma re_S_inv (k : Z -> string -> option A) s x :
  re_S k s = Some x -> exists v s', 0 <= v <= 61 /\ k v s' = Some x.
Proof.
  intros H. unfold re_S in H.
  apply re_alt_inv in H as [H|H]; [two_digits H|].
  apply re_alt_inv in H as [H|H]; [two_digits H | one_digit H].
Qed.

Lemma re_f_inv (k : string -> string -> option A) s x :
  re_f k s = Some x ->
  exists f r, k f r = Some x /\ all_chars isdigit f = true
              /\ (String.length f <= 6)%nat.
Proof.
  intros H. unfold re_f in H. apply re_one_inv in H as (a & s1 & Ha & H).
  apply re_upto_inv in H as (m & r & Hk & Hm & Hl).
  exists (String a m), r. simpl. rewrite Ha, Hm. repeat split; auto. lia.
Qed.

End MatcherFacts.

Lemma digits_run_all s : forall acc len,
  all_chars isdigit s = true -> 0 <= acc ->
  exists v, digits_run acc len s = (v, len + Z.of_nat (String.length s), "")
            /\ 0 <= v < (acc + 1) * 10 ^ Z.of_nat (String.length s).
Proof.
  induction s as [|c s IH]; intros acc len H Hacc;
    cbn [digits_run all_chars String.length] in *.
  - exists acc. split; [f_equal; f_equal; lia | lia].
  - apply andb_true_iff in H as [Hc Hs]. rewrite Hc.
    pose proof (isdigit_val c Hc) as Hv.
    destruct (IH (10 * acc + digit_val c) (len + 1) Hs ltac:(lia)) as (v & E & Hb).
    exists v. rewrite Nat2Z.inj_succ.
    split; [rewrite E; f_equal; f_equal; lia|].
    rewrite Z.pow_succ_r by lia. nia.
Qed.

Lemma fraction_of_range f :
  all_chars isdigit f = true -> (String.length f <= 6)%nat ->
  0 <= fraction_of f < 1000000.
Proof.
  intros Hd Hl. unfold fraction_of.
  destruct (digits_run_all f 0 0 Hd ltac:(lia)) as (v & -> & Hv).
  set (n := Z.of_nat (String.length f)) in *.
  assert (Hn : 0 <= n <= 6) by lia.
  assert (E : 1000000 = 10 ^ n * 10 ^ (6 - n)).
  { rewrite <- Z.pow_add_r by lia. now replace (n + (6 - n)) with 6 by lia. }
  assert (0 < 10 ^ (6 - n)) by (apply Z.pow_pos_nonneg; lia).
  rewrite E. change (0 + n) with n.
  change ((0 + 1) * 10 ^ n) with (1 * 10 ^ n) in Hv.
  split; [apply Z.mul_nonneg_nonneg; lia | apply Z.mul_lt_mono_pos_r; lia].
Qed.

(** A time that [strptime] returns is a valid time of day. *)
Lemma strptime_in_range v pt :
  strptime_HMSf v = Ok pt -> time_in_range pt.
Proof.
  unfold strptime_HMSf. destruct v as [s| | |]; try discriminate.
  destruct (hmsf_pattern s) as [[[[[h m] sec] f] rest]|] eqn:E; [|discriminate].
  destruct rest; [|discriminate].
  destruct (59 <? sec) eqn:Es; [discriminate|]. intros [= <-].
  apply Z.ltb_ge in Es. unfold hmsf_pattern in E.
  apply re_H_inv in E as (h' & s1 & Hh & E).
  apply re_lit_inv in E as (s2 & E).
  apply re_M_inv in E as (m' & s3 & Hm & E).
  apply re_lit_inv in E as (s4 & E).
  apply re_S_inv in E as (sec' & s5 & Hs & E).
  apply re_lit_inv in E as (s6 & E).
  apply re_f_inv in E as (f' & r & E & Hf & Hl).
  injection E as -> -> -> -> _.
  pose proof (fraction_of_range f Hf Hl).
  unfold time_in_range. simpl. lia.
Qed.

(** ** The constructor of [FFStream] *)

Lemma int_of_str_raises s e : int_of_str s = Raise e -> e = ValueError.
Proof.
  unfold int_of_str.
  destruct (match strip_by isspace_num s with
            | String "+" r => (false, r)
            | String "-" r => (true, r)
            | _ => (false, strip_by isspace_num s)
            end) as [neg body].
  destruct (digitpart AtStart 0 body); [|congruence].
  destruct (_ <? _)%nat; [congruence | discriminate].
Qed.

(** What the [try] statement leaves in the dictionary. *)
Lemma set_framerate_spec d0 d :
  set_framerate d0 = Ok d ->
  d !! "avg_frame_rate" = d0 !! "avg_frame_rate"
  /\ ((exists v, framerate_expr d0 = Ok v /\ d !! "framerate" = Some v)
      \/ (framerate_expr d0 = Raise ValueError /\ d !! "framerate" = Some VNone)
      \/ (framerate_expr d0 = Raise ZeroDivisionError
          /\ d !! "framerate" = Some (VInt 0))).
Proof.
  unfold set_framerate. intros H.
  destruct (framerate_expr d0) as [v|e] eqn:E.
  - injection H as <-. rewrite lookup_insert_ne by discriminate.
    rewrite lookup_insert_eq. eauto.
  - destruct e; try discriminate; injection H as <-;
      rewrite lookup_insert_ne by discriminate; rewrite lookup_insert_eq; auto.
Qed.

(** After a non-empty loop the dictionary is the result of the [try]
    statement of the last iteration. *)
Lemma init_lines_last lines : forall d d',
  init_lines d lines = Ok d' ->
  (lines = [] /\ d' = d) \/ exists d0, set_framerate d0 = Ok d'.
Proof.
  induction lines as [|l ls IH]; intros d d' H; simpl in H.
  - left. split; congruence.
  - right. apply bind_ok in H as (d1 & H1 & H).
    destruct (IH _ _ H) as [[-> ->]|Hd]; [|assumption].
    unfold init_line in H1. apply bind_ok in H1 as (d0 & _ & H1). eauto.
Qed.

Lemma framerate_expr_absent d :
  d !! "avg_frame_rate" = None -> framerate_expr d = Raise ValueError.
Proof. intros H. unfold framerate_expr, get. now rewrite H. Qed.

Lemma framerate_expr_fraction d n m :
  d !! "avg_frame_rate" = Some (VStr (n +:+ "/" +:+ m)) ->
  contains "/" n = false -> contains "/" m = false ->
  framerate_expr d
  = (do a <- int_of_str n; do b <- int_of_str m;
     do f <- int_truediv a b; py_round (VFloat f)).
Proof.
  intros H Hn Hm. unfold framerate_expr, get. rewrite H. simpl split_slash.
  cbn [bind]. change ("/" +:+ m) with (String "/" m).
  rewrite (split_app "/" n m Hn), (split_no_sep "/" m Hm).
  destruct (int_of_str n) as [a|e]; simpl; [|reflexivity].
  destruct (int_of_str m) as [b|e]; simpl; [|reflexivity].
  destruct (int_truediv a b); reflexivity.
Qed.

Lemma framerate_expr_int d v : framerate_expr d = Ok v -> exists z, v = VInt z.
Proof.
  unfold framerate_expr. intros H. apply bind_ok in H as (parts & _ & H).
  destruct parts as [|p ps]; [discriminate|].
  apply bind_ok in H as (a & _ & H). apply bind_ok in H as (q & _ & H).
  eauto using py_round_int.
Qed.

Lemma framerate_of_dict r v :
  __dict__ r !! "framerate" = Some v ->
  framerate r = match v with VInt z => Some z | _ => None end.
Proof. unfold framerate. now intros ->. Qed.

(** The constructor stores the frame rate: after a non-empty loop the
    attribute exists and holds an integer or [None]. *)
Lemma init_stores_framerate id lines r :
  FFStream.__init__ id lines = Ok r -> lines <> [] ->
  exists v, __dict__ r !! "framerate" = Some v
            /\ (v = VNone \/ exists z, v = VInt z).
Proof.
  unfold FFStream.__init__. intros H Hne. apply bind_ok in H as (d & Hd & H).
  injection H as <-. simpl.
  apply init_lines_last in Hd as [[-> _]|[d0 Hd]]; [contradiction|].
  apply set_framerate_spec in Hd as [_ [(v & Hv & Hf)|[[_ Hf]|[_ Hf]]]]; eauto.
  exists v. split; [assumption|]. right. eauto using framerate_expr_int.
Qed.

(** The frame rate of a constructed record, from its [avg_frame_rate]. *)
Lemma init_framerate id lines r :
  FFStream.__init__ id lines = Ok r ->
  (__dict__ r !! "avg_frame_rate" = None -> framerate r = None)
  /\ (forall n m,
        __dict__ r !! "avg_frame_rate" = Some (VStr (n +:+ "/" +:+ m)) ->
        contains "/" n = false -> contains "/" m = false ->
        match int_of_str n, int_of_str m with
        | Ok a, Ok b =>
            if b =? 0 then framerate r = Some 0
            else exists f z,
                int_truediv a b = Ok f
                /\ py_round (VFloat f) = Ok (VInt z)
                /\ float_rounds_to f z
                /\ framerate r = Some z
        | _, _ => framerate r = None
        end).
Proof.
  unfold FFStream.__init__. intros H. apply bind_ok in H as (d & Hd & H).
  injection H as <-. simpl.
  apply init_lines_last in Hd as [[_ ->]|[d0 Hd]].
  { split; [reflexivity|]. intros n m H. rewrite lookup_empty in H. discriminate. }
  apply set_framerate_spec in Hd as [Ha Hf]. rewrite Ha.
  set (r := {| oid := id; __dict__ := d |}).
  assert (Fr : forall v, d !! "framerate" = Some v ->
                 framerate r = match v with VInt z => Some z | _ => None end)
    by apply (framerate_of_dict r).
  split.
  - intros Habs. rewrite (framerate_expr_absent _ Habs) in Hf.
    destruct Hf as [(v & Hv & _)|[[_ Hf]|[Hv _]]]; try discriminate.
    now rewrite (Fr _ Hf).
  - intros n m Hnm Hn Hm.
    rewrite (framerate_expr_fraction _ n m Hnm Hn Hm) in Hf.
    destruct (int_of_str n) as [a|e] eqn:En; cbn [bind] in Hf.
    2:{ apply int_of_str_raises in En as ->.
        destruct Hf as [(v & Hv & _)|[[_ Hf]|[Hv _]]]; try discriminate.
        now rewrite (Fr _ Hf). }
    destruct (int_of_str m) as [b|e] eqn:Em; cbn [bind] in Hf.
    2:{ apply int_of_str_raises in Em as ->.
        destruct Hf as [(v & Hv & _)|[[_ Hf]|[Hv _]]]; try discriminate.
        now rewrite (Fr _ Hf). }
    destruct (b =? 0) eqn:Eb.
    + unfold int_truediv in Hf. rewrite Eb in Hf. cbn [bind] in Hf.
      destruct Hf as [(v & Hv & _)|[[Hv _]|[_ Hf]]]; try discriminate.
      now rewrite (Fr _ Hf).
    + apply Z.eqb_neq in Eb.
      destruct (int_truediv_cases a b Eb) as [(f & Hq & Hnum)|Hq];
        rewrite Hq in Hf; cbn [bind] in Hf.
      * destruct (py_round_number f Hnum) as [z Hz]. exists f, z.
        rewrite Hz in Hf.
        destruct Hf as [(v & Hv & Hf)|[[Hv _]|[Hv _]]]; try discriminate.
        injection Hv as <-. rewrite (Fr _ Hf).
        auto using py_round_nearest.
      * destruct Hf as [(v & Hv & _)|[[Hv _]|[Hv _]]]; discriminate.
Qed.

(** C2.  The frame rate of a record is computed and stored by its
    constructor (after a non-empty loop the attribute exists and holds an
    integer or [None]) from the [avg_frame_rate] that the record holds:
    without that key it is absent; for a value [n/m] with integer texts it
    is zero when the denominator is zero and otherwise the float quotient
    rounded to the nearest integer, ties to even; when [n] or [m] is no
    integer text it is absent.  The four values of the design hold, as do
    the values of the table: rates that are no integers, ties, signs, a
    quotient that is not the exact one, a numerator that no float holds,
    values of one and of three parts, and parts that are no integer
    texts. *)
Theorem framerate_from_avg_frame_rate :
  (forall id lines r,
      FFStream.__init__ id lines = Ok r ->
      (lines <> [] ->
       exists v, __dict__ r !! "framerate" = Some v
                 /\ (v = VNone \/ exists z, v = VInt z))
      /\ (__dict__ r !! "avg_frame_rate" = None -> framerate r = None)
      /\ (forall n m,
            __dict__ r !! "avg_frame_rate" = Some (VStr (n +:+ "/" +:+ m)) ->
            contains "/" n = false -> contains "/" m = false ->
            match int_of_str n, int_of_str m with
            | Ok a, Ok b =>
                if b =? 0 then framerate r = Some 0
                else exists f z,
                    int_truediv a b = Ok f
                    /\ py_round (VFloat f) = Ok (VInt z)
                    /\ float_rounds_to f z
                    /\ framerate r = Some z
            | _, _ => framerate r = None
            end))
  /\ (forall id, exists r,
        FFStream.__init__ id ["avg_frame_rate=30/1"] = Ok r /\ framerate r = Some 30)
  /\ (forall id, exists r,
        FFStream.__init__ id ["avg_frame_rate=0/1"] = Ok r /\ framerate r = Some 0)
  /\ (forall id, exists r,
        FFStream.__init__ id ["avg_frame_rate=30/0"] = Ok r /\ framerate r = Some 0)
  /\ (forall id, exists r,
        FFStream.__init__ id ["avg_frame_rate=abc/1"] = Ok r /\ framerate r = None)
  /\ (forall id, exists r,
        FFStream.__init__ id ["codec_type=video"] = Ok r /\ framerate r = None)
  /\ map (fun v => do r <- FFStream.__init__ 0 ["avg_frame_rate=" +:+ v];
                   Ok (framerate r))
       ["30000/1001"; "24000/1001"; "60000/1001"; "25/1"; "90000/1";
        "5/2"; "7/2"; "3/2"; "1/2"; "10/4"; "14/4"; "1/3"; "2/3";
        "-7/2"; "-5/2"; "7/-2"; "-7/-2";
        "27021597764222975/18014398509481984"; "9007199254740993/1";
        "9007199254740993/2";
        "30"; "60/2/3"; " 30 / 1 "; "1_000/8";
        "0/0"; "1/0/0"; "30/0/x"; "30/x/0"; "1/"; "30.0/1"; ""]
     = [Ok (Some 30); Ok (Some 24); Ok (Some 60); Ok (Some 25); Ok (Some 90000);
        Ok (Some 2); Ok (Some 4); Ok (Some 2); Ok (Some 0); Ok (Some 2);
        Ok (Some 4); Ok (Some 0); Ok (Some 1);
        Ok (Some (-4)); Ok (Some (-2)); Ok (Some (-4)); Ok (Some 4);
        Ok (Some 2); Ok (Some 9007199254740992);
        Ok (Some 4503599627370496);
        Ok (Some 30); Ok (Some 10); Ok (Some 30); Ok (Some 125);
        Ok (Some 0); Ok (Some 0); Ok (Some 0); Ok None; Ok None; Ok None;
        Ok None].
Proof.
  split.
  { intros id lines r H. split; [now apply (init_stores_framerate id)|].
    now apply (init_framerate id lines). }
  repeat match goal with |- _ /\ _ => split end;
    try (intros id; eexists; (split; [vm_compute; reflexivity|]));
    vm_compute; reflexivity.
Qed.

(** The general part at a video record with the NTSC rate 30000/1001: the
    quotient is the float 8435813487831848 * 2 ^ -48, which is 29.97.., and
    the frame rate is 30. *)
Lemma framerate_from_avg_frame_rate_witness :
  exists r,
    FFStream.__init__ 0 ["codec_type=video"; "avg_frame_rate=30000/1001"] = Ok r
    /\ int_truediv 30000 1001 = Ok (S754_finite false 8435813487831848 (-48))
    /\ float_rounds_to (S754_finite false 8435813487831848 (-48)) 30
    /\ framerate r = Some 30.
Proof.
  destruct (is_ok_inv (FFStream.__init__ 0
              ["codec_type=video"; "avg_frame_rate=30000/1001"])) as [r E];
    [vm_compute; reflexivity|].
  exists r. split; [exact E|].
  destruct (proj2 (proj2 (proj1 framerate_from_avg_frame_rate 0%nat _ r E))
              "30000" "1001" ltac:(run E) eq_refl eq_refl)
    as (f & z & Hf & Hz & Hn & Hr).
  vm_compute in Hf. injection Hf as <-.
  vm_compute in Hz. injection Hz as <-.
  split; [vm_compute; reflexivity|]. split; [exact Hn | exact Hr].
Defined.

(** The quotient is a float: 27021597764222975/18014398509481984 lies
    below 1.5 by one part in 2^54, the nearest float is 1.5, and the frame
    rate is 2, where rounding the exact quotient gives 1. *)
Example framerate_of_float_quotient :
  (do r <- FFStream.__init__ 0
             ["avg_frame_rate=27021597764222975/18014398509481984"];
   Ok (framerate r)) = Ok (Some 2)
  /\ round_half_even 27021597764222975 18014398509481984 = 1.
Proof. split; vm_compute; reflexivity. Qed.

(** Further values: one part only, three parts, white space and signs, ties
    to even. *)
Example framerate_values :
  map (fun v => do r <- FFStream.__init__ 0 ["avg_frame_rate=" +:+ v];
                Ok (framerate r))
    ["30"; "60/2/3"; " 30 / 1 "; "-7/2"; "5/2"; "24000/1001"; "30/0/x";
     "30/x/0"; "1/"; ""]
  = [Ok (Some 30); Ok (Some 10); Ok (Some 30); Ok (Some (-4)); Ok (Some 2);
     Ok (Some 24); Ok (Some 0); Ok None; Ok None; Ok None].
Proof. vm_compute. reflexivity. Qed.

Lemma init_oid id lines r : FFStream.__init__ id lines = Ok r -> oid r = id.
Proof.
  unfold FFStream.__init__. intros H. apply bind_ok in H as (d & _ & H).
  now injection H as <-.
Qed.

(** A line without an equals sign makes the constructor raise. *)
Lemma update_line_no_equals d line :
  contains "=" line = false -> update_line d line = Raise ValueError.
Proof.
  intros H. unfold update_line, strip, strip_by.
  now rewrite (split_no_sep "=" _
                 (rstrip_no_char _ _ _ (lstrip_no_char isspace _ _ H))).
Qed.

Lemma init_lines_no_equals pre : forall d line post,
  contains "=" line = false -> is_ok (init_lines d (pre ++ line :: post)) = false.
Proof.
  induction pre as [|l pre IH]; intros d line post H; simpl.
  - unfold init_line. now rewrite (update_line_no_equals d line H).
  - destruct (init_line d l); simpl; auto.
Qed.

(** ** The queries of [FFStream] *)

Lemma get_absent (d : gmap string pyval) key default :
  d !! key = None -> get d key default = default.
Proof. unfold get. now intros ->. Qed.

Lemma get_present (d : gmap string pyval) key default v :
  d !! key = Some v -> get d key default = v.
Proof. unfold get. now intros ->. Qed.

Lemma reraise_int_of_str s :
  reraise (int_of_str s)
  = match int_of_str s with Ok z => Ok z | Raise _ => Raise FFProbeError end.
Proof.
  destruct (int_of_str s) as [z|e] eqn:E; [reflexivity|].
  now apply int_of_str_raises in E as ->.
Qed.

(** *** Method calls *)

Lemma call_absent {A} name (method : FFStream -> result A) self :
  __dict__ self !! name = None -> call name method self = method self.
Proof. unfold call. now intros ->. Qed.

Lemma call_present {A} name (method : FFStream -> result A) self v :
  __dict__ self !! name = Some v -> call name method self = Raise TypeError.
Proof. unfold call. now intros ->. Qed.

Lemma call_pure_absent {A} name (method : FFStream -> A) self :
  __dict__ self !! name = None -> call_pure name method self = Ok (method self).
Proof. exact (call_absent name (fun s => Ok (method s)) self). Qed.

Lemma call_pure_present {A} name (method : FFStream -> A) self v :
  __dict__ self !! name = Some v -> call_pure name method self = Raise TypeError.
Proof. exact (call_present name (fun s => Ok (method s)) self v). Qed.

Lemma unshadowed_cons name names self :
  unshadowed (name :: names) self
  <-> __dict__ self !! name = None /\ unshadowed names self.
Proof. unfold unshadowed. apply Forall_cons_iff. Qed.

(** Reads the hypotheses of the form [unshadowed [..] self] as lookups. *)
Ltac unshadow :=
  repeat match goal with
         | H : unshadowed (_ :: _) _ |- _ =>
             apply unshadowed_cons in H; destruct H as [? H]
         | H : unshadowed [] _ |- _ => clear H
         end.

(** The test of lines 214 and 229 when no field shadows the predicates. *)
Lemma is_video_or_audio_unshadowed self :
  unshadowed ["is_video"; "is_audio"] self ->
  is_video_or_audio self = Ok (is_video self || is_audio self).
Proof.
  intros H. unshadow. unfold is_video_or_audio.
  rewrite !call_pure_absent by assumption. cbn [bind].
  now destruct (is_video self).
Qed.

(** It raises nothing but the [TypeError] of a shadowed predicate. *)
Lemma is_video_or_audio_raises self e :
  is_video_or_audio self = Raise e -> e = TypeError.
Proof.
  unfold is_video_or_audio, call_pure, call.
  destruct (__dict__ self !! "is_video"); [now intros [= <-]|]. cbn [bind].
  destruct (is_video self); [discriminate|].
  destruct (__dict__ self !! "is_audio"); [now intros [= <-] | discriminate].
Qed.

(** *** [duration_seconds] *)

(** The cases of the body of [duration_seconds], by the result of the
    test of line 229. *)
Lemma duration_seconds_body (self : FFStream) :
  (is_video_or_audio self = Ok false ->
     duration_seconds self = Ok (VFloat (S754_zero false)))
  /\ (is_video_or_audio self = Ok true ->
      (forall f,
          py_float (get (__dict__ self) "duration" (VStr "")) = Ok f ->
          duration_seconds self = Ok (VFloat f))
      /\ (forall pt,
          py_float (get (__dict__ self) "duration" (VStr "")) = Raise ValueError ->
          strptime_HMSf (get (__dict__ self) "TAG:DURATION" (VStr "")) = Ok pt ->
          duration_seconds self = Ok (VFloat (seconds_value pt)))
      /\ (__dict__ self !! "duration" = Some (VStr "N/A") ->
          __dict__ self !! "TAG:DURATION" = Some (VStr "N/A") ->
          duration_seconds self = Ok (VInt 0))
      /\ (py_float (get (__dict__ self) "duration" (VStr "")) = Raise ValueError ->
          strptime_HMSf (get (__dict__ self) "TAG:DURATION" (VStr ""))
          = Raise ValueError ->
          eq_str (get (__dict__ self) "duration" (VStr "")) "N/A"
          && eq_str (get (__dict__ self) "TAG:DURATION" (VStr "")) "N/A" = false ->
          duration_seconds self = Raise UnboundLocalError)).
Proof.
  unfold duration_seconds. split; [now intros ->|]. intros ->. cbn [bind].
  split; [now intros f ->|]. split; [|split].
  - intros pt -> Hpt. rewrite Hpt. cbn [bind].
    now rewrite (seconds_of_in_range pt (strptime_in_range _ _ Hpt)).
  - intros Hd Ht.
    rewrite (get_present _ _ _ _ Hd), (get_present _ _ _ _ Ht). reflexivity.
  - intros Hf Ht Hna. now rewrite Hf, Ht, Hna.
Qed.




(** C10.  On a video or audio record (whose kind predicates no field
    shadows), when neither field converts and the two raw values are not
    both the text N/A, no value is ever assigned to the local that line 247
    returns: the query ends in [UnboundLocalError].  A record with only a
    [codec_type] is such a record: the call [self.duration_seconds()]
    raises. *)
Theorem duration_seconds_unbound :
  (forall self,
      unshadowed ["is_video"; "is_audio"] self ->
      is_video self || is_audio self = true ->
      py_float (get (__dict__ self) "duration" (VStr "")) = Raise ValueError ->
      strptime_HMSf (get (__dict__ self) "TAG:DURATION" (VStr ""))
      = Raise ValueError ->
      eq_str (get (__dict__ self) "duration" (VStr "")) "N/A"
      && eq_str (get (__dict__ self) "TAG:DURATION" (VStr "")) "N/A" = false ->
      duration_seconds self = Raise UnboundLocalError)
  /\ (forall id, exists r,
        FFStream.__init__ id ["codec_type=video"] = Ok r
        /\ is_video r = true
        /\ __dict__ r !! "duration" = None
        /\ __dict__ r !! "TAG:DURATION" = None
        /\ duration_seconds r = Raise UnboundLocalError
        /\ call "duration_seconds" duration_seconds r
           = Raise UnboundLocalError).
Proof.
  split.
  - intros self Hu Hk Hf Ht Hna.
    pose proof (is_video_or_audio_unshadowed self Hu) as Hv. rewrite Hk in Hv.
    exact (proj2 (proj2 (proj2 (proj2 (duration_seconds_body self) Hv)))
             Hf Ht Hna).
  - intros id. eexists. split; [vm_compute; reflexivity|].
    repeat split; vm_compute; reflexivity.
Qed.

(** A video record whose [duration] is free text, without [TAG:DURATION]. *)
Lemma duration_seconds_unbound_witness :
  exists r,
    FFStream.__init__ 0 ["codec_type=video"; "duration=about a minute"] = Ok r
    /\ duration_seconds r = Raise UnboundLocalError.
Proof.
  eexists. split; [vm_compute; reflexivity|].
  match goal with
  | |- duration_seconds ?r = _ =>
      refine (proj1 duration_seconds_unbound r _ eq_refl eq_refl eq_refl eq_refl)
  end.
  repeat constructor.
Defined.

(** *** Missing fields *)

(** An integer query on a field that is not an integer text. *)
Lemma int_field_not_numeric (d : gmap string pyval) key s e :
  d !! key = Some (VStr s) -> int_of_str s = Raise e ->
  reraise (py_int (get d key (VStr ""))) = Raise FFProbeError.
Proof.
  intros H E. rewrite (get_present _ _ _ _ H). simpl.
  rewrite reraise_int_of_str. now rewrite E.
Qed.

(** C9, as the code has it, for the queries that no field shadows (a field
    named like the query, or like a kind predicate that the query calls,
    makes the call raise [TypeError]).  A missing field is no error for
    the kind predicates (false), the queries that pass a raw value through
    ([None]), the title (its default text), the byte count (zero), the
    language (undefined) and the frame count of a record that is neither
    video nor audio (zero).  For the frame count of a video or audio
    record, the bit rate, the channel count and the stream index, a
    missing field raises [FFProbeError], as a field that is present and no
    integer text does. *)
Theorem missing_field_policy (self : FFStream) :
  (__dict__ self !! "codec_type" = None ->
     (unshadowed ["is_video"] self ->
      call_pure "is_video" is_video self = Ok false)
     /\ (unshadowed ["is_audio"] self ->
         call_pure "is_audio" is_audio self = Ok false)
     /\ (unshadowed ["is_subtitle"] self ->
         call_pure "is_subtitle" is_subtitle self = Ok false)
     /\ (unshadowed ["is_attachment"] self ->
         call_pure "is_attachment" is_attachment self = Ok false))
  /\ (unshadowed ["aspect_ratio"] self ->
      __dict__ self !! "display_aspect_ratio" = None ->
      call_pure "aspect_ratio" aspect_ratio self = Ok VNone)
  /\ (__dict__ self !! "color_range" = None ->
      call_pure "color_range" color_range self = Ok VNone)
  /\ (unshadowed ["pixel_format"] self -> __dict__ self !! "pix_fmt" = None ->
      call_pure "pixel_format" pixel_format self = Ok VNone)
  /\ (unshadowed ["codec"] self -> __dict__ self !! "codec_name" = None ->
      call_pure "codec" codec self = Ok VNone)
  /\ (unshadowed ["codec_description"] self ->
      __dict__ self !! "codec_long_name" = None ->
      call_pure "codec_description" codec_description self = Ok VNone)
  /\ (unshadowed ["codec_tag"] self ->
      __dict__ self !! "codec_tag_string" = None ->
      call_pure "codec_tag" codec_tag self = Ok VNone)
  /\ (__dict__ self !! "channel_layout" = None ->
      call_pure "channel_layout" channel_layout self = Ok VNone)
  /\ (unshadowed ["stream_title"] self -> __dict__ self !! "TAG:title" = None ->
      call_pure "stream_title" stream_title self
      = Ok (VStr "No title has been set"))
  /\ (unshadowed ["stream_bytes"] self ->
      __dict__ self !! "TAG:NUMBER_OF_BYTES" = None ->
      call "stream_bytes" stream_bytes self = Ok 0)
  /\ (forall Lang_name,
        unshadowed ["language"] self -> __dict__ self !! "TAG:language" = None ->
        call "language" (language Lang_name) self
        = Ok (VStr "und", "Undefined"))
  /\ (unshadowed ["frames"; "is_video"; "is_audio"] self ->
      __dict__ self !! "nb_frames" = None ->
      call "frames" frames self
      = if is_video self || is_audio self then Raise FFProbeError else Ok 0)
  /\ (__dict__ self !! "bit_rate" = None ->
      call "bit_rate" bit_rate self = Raise FFProbeError)
  /\ (unshadowed ["audio_channels"] self -> __dict__ self !! "channels" = None ->
      call "audio_channels" audio_channels self = Raise FFProbeError)
  /\ (unshadowed ["stream_index"] self -> __dict__ self !! "index" = None ->
      call "stream_index" stream_index self = Raise FFProbeError)
  /\ (forall s e,
        unshadowed ["frames"; "is_video"; "is_audio"] self ->
        is_video self || is_audio self = true ->
        __dict__ self !! "nb_frames" = Some (VStr s) ->
        int_of_str s = Raise e ->
        call "frames" frames self = Raise FFProbeError)
  /\ (forall s e,
        unshadowed ["audio_channels"] self ->
        __dict__ self !! "channels" = Some (VStr s) ->
        int_of_str s = Raise e ->
        call "audio_channels" audio_channels self = Raise FFProbeError)
  /\ (forall s e,
        unshadowed ["stream_index"] self ->
        __dict__ self !! "index" = Some (VStr s) ->
        int_of_str s = Raise e ->
        call "stream_index" stream_index self = Raise FFProbeError).
Proof.
  repeat match goal with |- _ /\ _ => split end.
  - intros H. unfold is_video, is_audio, is_subtitle, is_attachment.
    repeat split; intros Hu; unshadow; rewrite call_pure_absent by assumption;
      now rewrite (get_absent _ _ _ H).
  - intros Hu H. unshadow. rewrite call_pure_absent by assumption.
    unfold aspect_ratio. now rewrite (get_absent _ _ _ H).
  - intros H. rewrite call_pure_absent by assumption.
    unfold color_range. now rewrite (get_absent _ _ _ H).
  - intros Hu H. unshadow. rewrite call_pure_absent by assumption.
    unfold pixel_format. now rewrite (get_absent _ _ _ H).
  - intros Hu H. unshadow. rewrite call_pure_absent by assumption.
    unfold codec. now rewrite (get_absent _ _ _ H).
  - intros Hu H. unshadow. rewrite call_pure_absent by assumption.
    unfold codec_description. now rewrite (get_absent _ _ _ H).
  - intros Hu H. unshadow. rewrite call_pure_absent by assumption.
    unfold codec_tag. now rewrite (get_absent _ _ _ H).
  - intros H. rewrite call_pure_absent by assumption.
    unfold channel_layout. now rewrite (get_absent _ _ _ H).
  - intros Hu H. unshadow. rewrite call_pure_absent by assumption.
    unfold stream_title. now rewrite (get_absent _ _ _ H).
  - intros Hu H. unshadow. rewrite call_absent by assumption.
    unfold stream_bytes. now rewrite (get_absent _ _ _ H).
  - intros Lang_name Hu H. unshadow. rewrite call_absent by assumption.
    unfold language. now rewrite (get_absent _ _ _ H).
  - intros Hu H. apply unshadowed_cons in Hu as [Hf Hu].
    rewrite call_absent by assumption. unfold frames.
    rewrite (is_video_or_audio_unshadowed self Hu). cbn [bind].
    now rewrite (get_absent _ _ _ H).
  - intros H. rewrite call_absent by assumption.
    unfold bit_rate. now rewrite (get_absent _ _ _ H).
  - intros Hu H. unshadow. rewrite call_absent by assumption.
    unfold audio_channels. now rewrite (get_absent _ _ _ H).
  - intros Hu H. unshadow. rewrite call_absent by assumption.
    unfold stream_index. now rewrite (get_absent _ _ _ H).
  - intros s e Hu Hk H E. apply unshadowed_cons in Hu as [Hf Hu].
    rewrite call_absent by assumption. unfold frames.
    rewrite (is_video_or_audio_unshadowed self Hu), Hk. cbn [bind].
    exact (int_field_not_numeric _ _ _ _ H E).
  - intros s e Hu H E. unshadow. rewrite call_absent by assumption.
    exact (int_field_not_numeric _ _ _ _ H E).
  - intros s e Hu H E. unshadow. rewrite call_absent by assumption.
    exact (int_field_not_numeric _ _ _ _ H E).
Qed.

(** C9 as stated fails: on an audio record without [nb_frames],
    [bit_rate] and [channels] the three queries raise, and so does the
    stream index of a record without [index]. *)
Lemma missing_numeric_field_raises :
  exists r,
    FFStream.__init__ 0 ["codec_type=audio"; "codec_name=aac"] = Ok r
    /\ __dict__ r !! "nb_frames" = None
    /\ call "frames" frames r = Raise FFProbeError
    /\ __dict__ r !! "bit_rate" = None
    /\ call "bit_rate" bit_rate r = Raise FFProbeError
    /\ __dict__ r !! "channels" = None
    /\ call "audio_channels" audio_channels r = Raise FFProbeError
    /\ __dict__ r !! "index" = None
    /\ call "stream_index" stream_index r = Raise FFProbeError.
Proof.
  eexists. split; [vm_compute; reflexivity|].
  repeat split; vm_compute; reflexivity.
Qed.

(** The [bit_rate] field of a record, numeric or not, shadows the method:
    the call raises [TypeError], where the function of the class returns
    the integer. *)
Example bit_rate_field_shadows_method :
  (do r <- FFStream.__init__ 0 ["codec_type=audio"; "bit_rate=128000"];
   Ok (call "bit_rate" bit_rate r, bit_rate r))
  = Ok (Raise TypeError, Ok 128000).
Proof. vm_compute. reflexivity. Qed.

(** An audio record without frame count, channel count and bit rate, whose
    index is no integer. *)
Lemma missing_field_policy_witness :
  exists r,
    FFStream.__init__ 1 ["index=first"; "codec_type=audio"] = Ok r
    /\ call "frames" frames r = Raise FFProbeError
    /\ call "bit_rate" bit_rate r = Raise FFProbeError
    /\ call "audio_channels" audio_channels r = Raise FFProbeError
    /\ call "stream_index" stream_index r = Raise FFProbeError
    /\ call_pure "codec" codec r = Ok VNone
    /\ call "stream_bytes" stream_bytes r = Ok 0.
Proof.
  destruct (is_ok_inv (FFStream.__init__ 1 ["index=first"; "codec_type=audio"]))
    as [r E]; [vm_compute; reflexivity|].
  exists r. split; [exact E|].
  destruct (missing_field_policy r)
    as (_ & _ & _ & _ & Hcodec & _ & _ & _ & _ & Hbytes & _ & Hframes & Hbit
        & Hchan & _ & _ & _ & Hindex).
  assert (Hk : is_video r || is_audio r = true) by run E.
  split.
  { rewrite Hframes; [now rewrite Hk | repeat constructor; run E | run E]. }
  split; [apply Hbit; run E|].
  split; [apply Hchan; [repeat constructor; run E | run E]|].
  split.
  { apply (Hindex "first" ValueError); [repeat constructor; run E | run E|].
    vm_compute. reflexivity. }
  split; [apply Hcodec; [repeat constructor; run E | run E]|].
  apply Hbytes; [repeat constructor; run E | run E].
Defined.

(** ** The block scan *)

Lemma regions_of_plain acc body rest :
  Forall (fun l => plain l = true) body ->
  regions_of (Some acc) (body ++ rest) = regions_of (Some (acc ++ body)) rest.
Proof.
  intros H. revert acc. induction H as [|l body Hl _ IH]; intros acc.
  - now rewrite app_nil_r.
  - simpl. unfold plain in Hl. apply andb_true_iff in Hl as [H1 H2].
    apply negb_true_iff in H1, H2. rewrite H1, H2, IH.
    now rewrite <- app_assoc.
Qed.

Lemma regions_of_reopens cur ls :
  reopens ls -> regions_of cur ls = regions_of None ls.
Proof. destruct ls as [|l ls]; simpl; [easy|]. now intros ->. Qed.

Lemma Regions_regions_of lines bodies :
  Regions lines bodies -> regions_of None lines = bodies.
Proof.
  induction 1 as [|l ls bs Hl _ IH|o body c ls bs Ho Hb Hc _ IH
                 |o body ls bs Ho Hb Hr _ IH]; simpl.
  - reflexivity.
  - rewrite Hl. now destruct (contains "[/STREAM]" l).
  - rewrite Ho, (regions_of_plain [] body (c :: ls) Hb). simpl.
    unfold closes in Hc. apply andb_true_iff in Hc as [H1 H2].
    apply negb_true_iff in H2. now rewrite H2, H1, IH.
  - rewrite Ho, (regions_of_plain [] body ls Hb), regions_of_reopens; auto.
Qed.

(** The plain lines at the head of a sequence. *)
Lemma plain_prefix (ls : list string) :
  exists body rest, ls = body ++ rest
    /\ Forall (fun l => plain l = true) body
    /\ match rest with [] => True | x :: _ => plain x = false end.
Proof.
  induction ls as [|l ls (body & rest & -> & Hb & Hr)].
  - exists [], []. repeat split; constructor.
  - destruct (plain l) eqn:Hl.
    + exists (l :: body), rest. repeat split; auto.
    + exists [], (l :: body ++ rest). repeat split; auto.
Qed.

Lemma Regions_total_upto (n : nat) : forall lines,
  (length lines <= n)%nat -> exists bodies, Regions lines bodies.
Proof.
  induction n as [|n IH]; intros lines Hn.
  - destruct lines; [|simpl in Hn; lia]. exists []. constructor.
  - destruct lines as [|l ls]; [exists []; constructor|].
    simpl in Hn. destruct (opens l) eqn:Hl.
    + destruct (plain_prefix ls) as (body & rest & -> & Hb & Hr).
      rewrite length_app in Hn.
      destruct rest as [|x rest].
      * exists []. apply Regions_unclosed; simpl; auto. constructor.
      * destruct (opens x) eqn:Hx.
        -- destruct (IH (x :: rest)) as [bs Hbs]; [simpl in *; lia|].
           exists bs. apply Regions_unclosed; auto.
        -- destruct (IH rest) as [bs Hbs]; [simpl in *; lia|].
           exists (body :: bs). apply Regions_block; auto.
           unfold closes. unfold plain in Hr. rewrite Hx in *. simpl in *.
           apply negb_false_iff in Hr. now rewrite Hr.
    + destruct (IH ls) as [bs Hbs]; [lia|].
      exists bs. now apply Regions_outside.
Qed.

Lemma Regions_total lines : exists bodies, Regions lines bodies.
Proof. apply (Regions_total_upto (length lines)). lia. Qed.

Lemma bound_init : bound blocks_init.
Proof. intros H. discriminate H. Qed.

Lemma block_step_bound st line st' :
  bound st -> block_step st line = Ok st' -> bound st'.
Proof.
  unfold block_step, bound. intros Hb H.
  destruct (contains "[STREAM]" line).
  { injection H as <-. simpl. discriminate. }
  destruct (contains "[/STREAM]" line && stream st).
  { apply bind_ok in H as (dl & _ & H). apply bind_ok in H as (r & _ & H).
    injection H as <-. simpl. discriminate. }
  destruct (stream st) eqn:Hs.
  { apply bind_ok in H as (dl & _ & H). injection H as <-. simpl. discriminate. }
  injection H as <-. now rewrite Hs.
Qed.

Lemma stdout_loop_bound lines : forall st st',
  bound st -> stdout_loop st lines = Ok st' -> bound st'.
Proof.
  induction lines as [|l ls IH]; simpl; intros st st' Hb H.
  - now injection H as <-.
  - apply bind_ok in H as (st1 & H1 & H). eauto using block_step_bound.
Qed.

(** The loop against the pure scan: from any state in which [data_lines] is
    bound when needed, the loop appends one record per completed body. *)
Lemma stdout_loop_regions lines : forall st,
  bound st ->
  (do st' <- stdout_loop st lines; Ok (self_streams st'))
  = (do rs <- build_all (length (self_streams st)) (regions_of (cur_of st) lines);
     Ok (self_streams st ++ rs)).
Proof.
  induction lines as [|l ls IH]; intros st Hb; simpl.
  - now rewrite app_nil_r.
  - unfold block_step, opens, cur_of.
    destruct (contains "[STREAM]" l) eqn:Ho; simpl.
    { rewrite IH by (simpl; discriminate). reflexivity. }
    destruct (contains "[/STREAM]" l) eqn:Hc; simpl.
    + destruct (stream st) eqn:Hs; simpl.
      * unfold read_data_lines.
        destruct (data_lines st) as [dl|] eqn:Hd; [|now elim (Hb Hs)].
        simpl.
        destruct (FFStream.__init__ (length (self_streams st)) dl) as [r|e];
          simpl; auto.
        rewrite IH by (simpl; discriminate). simpl.
        rewrite length_app. simpl. rewrite Nat.add_1_r.
        destruct (build_all _ _); simpl; auto.
        now rewrite <- app_assoc.
      * rewrite IH by (unfold bound; now rewrite Hs).
        unfold cur_of. now rewrite Hs.
    + destruct (stream st) eqn:Hs; simpl.
      * unfold read_data_lines.
        destruct (data_lines st) as [dl|] eqn:Hd; [|now elim (Hb Hs)].
        simpl. rewrite IH by (simpl; discriminate). reflexivity.
      * rewrite IH by (unfold bound; now rewrite Hs).
        unfold cur_of. now rewrite Hs.
Qed.

Lemma build_all_Forall2 bodies : forall next recs,
  build_all next bodies = Ok recs ->
  Forall2 (fun body r => FFStream.__init__ (oid r) body = Ok r) bodies recs
  /\ map oid recs = seq next (length bodies).
Proof.
  induction bodies as [|b bs IH]; intros next recs H; simpl in H.
  - injection H as <-. split; constructor.
  - apply bind_ok in H as (r & Hr & H). apply bind_ok in H as (rs & Hrs & H).
    injection H as <-. destruct (IH _ _ Hrs) as [IH1 IH2].
    assert (Hid : oid r = next).
    { unfold FFStream.__init__ in Hr. apply bind_ok in Hr as (d & _ & Hr).
      now injection Hr as <-. }
    split; [constructor; [now rewrite Hid | assumption]|].
    simpl. now rewrite Hid, IH2.
Qed.

(** Every line sequence splits in exactly one way into lines outside of
    all blocks, unclosed openings and well-formed regions; the first loop
    is the construction of one record per region from its content, in input
    order: when it returns, the stream list is the list of these records,
    and it raises exactly when the construction of one of them does. *)
Lemma parse_blocks_builds_regions (lines : list string) :
  exists bodies,
    Regions lines bodies
    /\ (forall bodies', Regions lines bodies' -> bodies' = bodies)
    /\ parse_blocks lines = build_all 0 bodies
    /\ (forall recs, parse_blocks lines = Ok recs ->
          Forall2 (fun body r => FFStream.__init__ (oid r) body = Ok r) bodies recs
          /\ map oid recs = seq 0 (length bodies)).
Proof.
  destruct (Regions_total lines) as [bodies HR].
  exists bodies.
  assert (Hp : parse_blocks lines = build_all 0 bodies).
  { unfold parse_blocks. rewrite (stdout_loop_regions lines _ bound_init).
    unfold cur_of. simpl. rewrite (Regions_regions_of _ _ HR).
    destruct (build_all 0 bodies); reflexivity. }
  split; [assumption|]. split.
  { intros bs' HR'. rewrite <- (Regions_regions_of _ _ HR').
    now apply Regions_regions_of. }
  split; [assumption|].
  intros recs H. rewrite Hp in H. now apply build_all_Forall2 in H.
Qed.

(** C1 does not hold of the code.  The output for a rotated video has two
    well-formed regions, and only these two; the parse gives no record for
    them, where the claim has two: the line [[SIDE_DATA]] of the first
    region has no equals sign, the constructor raises [ValueError] on it
    (line 116), and the loop ends there, before it reads the second
    region. *)
Theorem regions_without_records :
  Regions side_data_out
    [readlines ["index=0"; "codec_type=video"; "[SIDE_DATA]";
                "side_data_type=Display Matrix"; "rotation=-90";
                "[/SIDE_DATA]"];
     readlines ["index=1"; "codec_type=audio"]]
  /\ (forall bodies, Regions side_data_out bodies -> length bodies = 2%nat)
  /\ parse_blocks side_data_out = Raise ValueError
  /\ (forall recs, parse_blocks side_data_out <> Ok recs)
  /\ FFProbe.__init__ side_data_out [] = Raise ValueError.
Proof.
  split.
  { destruct (Regions_total side_data_out) as [bodies H].
    pose proof (Regions_regions_of _ _ H) as E. vm_compute in E.
    subst bodies. exact H. }
  split.
  { intros bodies H. apply Regions_regions_of in H. now subst bodies. }
  assert (E : parse_blocks side_data_out = Raise ValueError)
    by (vm_compute; reflexivity).
  split; [exact E|]. split; [rewrite E; discriminate|].
  vm_compute. reflexivity.
Qed.

(** A delimited block with a line without an equals sign makes the loop
    raise, whatever precedes and follows it. *)
Lemma block_with_bad_line_aborts st o pre line post c rest :
  bound st -> opens o = true ->
  Forall (fun l => plain l = true) (pre ++ line :: post) ->
  contains "=" line = false -> closes c = true ->
  is_ok (stdout_loop st (o :: (pre ++ line :: post) ++ c :: rest)) = false.
Proof.
  intros Hb Ho Hp He Hc.
  pose proof (stdout_loop_regions (o :: (pre ++ line :: post) ++ c :: rest) st Hb)
    as E.
  assert (R : regions_of (cur_of st) (o :: (pre ++ line :: post) ++ c :: rest)
              = (pre ++ line :: post) :: regions_of None rest).
  { simpl. rewrite Ho, (regions_of_plain [] _ (c :: rest) Hp). simpl.
    unfold closes in Hc. apply andb_true_iff in Hc as [H1 H2].
    apply negb_true_iff in H2. now rewrite H2, H1. }
  rewrite R in E. simpl build_all in E. unfold FFStream.__init__ in E.
  pose proof (init_lines_no_equals pre ∅ line post He) as Hi.
  destruct (init_lines ∅ (pre ++ line :: post)); [discriminate Hi|].
  cbn [bind] in E.
  destruct (stdout_loop st _); cbn [bind] in E; [discriminate E | reflexivity].
Qed.

(** C5: the parse of a stream block with a nested section marker line
    (a line without an equals sign) raises; no record is produced, also not
    for the well-formed block that follows. *)
Theorem malformed_block_line_aborts :
  FFProbe.__init__ side_data_out [] = Raise ValueError
  /\ parse_blocks side_data_out = Raise ValueError.
Proof. split; vm_compute; reflexivity. Qed.

(** ** Identities and the classification pass *)

Lemma ids_ok_snoc l r :
  ids_ok l -> oid r = length l -> ids_ok (l ++ [r]).
Proof.
  intros Hl Hr i x Hx.
  destruct (decide (i < length l)%nat) as [Hi|Hi].
  - rewrite lookup_app_l in Hx by assumption. now apply Hl.
  - rewrite lookup_app_r in Hx by lia.
    destruct (i - length l)%nat eqn:E; simpl in Hx; [|discriminate].
    injection Hx as <-. lia.
Qed.

Lemma block_step_ids st line st' :
  block_step st line = Ok st' -> ids_ok (self_streams st) -> ids_ok (self_streams st').
Proof.
  unfold block_step. intros H Hi.
  destruct (contains "[STREAM]" line); [now injection H as <-|].
  destruct (contains "[/STREAM]" line && stream st).
  { apply bind_ok in H as (dl & _ & H). apply bind_ok in H as (r & Hr & H).
    injection H as <-. simpl. apply ids_ok_snoc; auto.
    now apply init_oid in Hr. }
  destruct (stream st).
  { apply bind_ok in H as (dl & _ & H). now injection H as <-. }
  now injection H as <-.
Qed.

Lemma stdout_loop_ids lines : forall st st',
  stdout_loop st lines = Ok st' -> ids_ok (self_streams st) -> ids_ok (self_streams st').
Proof.
  induction lines as [|l ls IH]; simpl; intros st st' H Hi.
  - now injection H as <-.
  - apply bind_ok in H as (st1 & H1 & H).
    eapply IH; eauto using block_step_ids.
Qed.

Lemma stderr_loop_ids lines : forall st st',
  stderr_loop st lines = Ok st' ->
  ids_ok (self_streams (fst st)) -> ids_ok (self_streams (fst st')).
Proof.
  induction lines as [|l ls IH]; simpl; intros st st' H Hi.
  - now injection H as <-.
  - apply bind_ok in H as (st1 & H1 & H).
    eapply IH; eauto. unfold stderr_step in H1.
    apply bind_ok in H1 as (m & _ & H1). apply bind_ok in H1 as (b & Hb & H1).
    injection H1 as <-. simpl. eauto using block_step_ids.
Qed.

Lemma ids_ok_occurs_once l r : ids_ok l -> In r l -> occurs_once r l.
Proof.
  intros Hl Hr. apply list_elem_of_In, list_elem_of_lookup in Hr as [i Hi].
  exists i. split; [assumption|]. intros j Hj.
  rewrite <- (Hl _ _ Hi). symmetry. now apply Hl.
Qed.

Lemma eq_str_true v s : eq_str v s = true <-> v = VStr s.
Proof.
  destruct v; simpl; try (split; [discriminate | congruence]).
  rewrite String.eqb_eq. split; congruence.
Qed.

Lemma kind_test (kind : string) (r : FFStream) :
  eq_str (get (__dict__ r) "codec_type" VNone) kind = true <-> has_kind kind r.
Proof.
  rewrite eq_str_true. unfold get, has_kind.
  destruct (__dict__ r !! "codec_type") as [v|]; split; congruence.
Qed.

Lemma kind_exclusive (k1 k2 : string) (r : FFStream) :
  k1 <> k2 ->
  eq_str (get (__dict__ r) "codec_type" VNone) k1 = true ->
  eq_str (get (__dict__ r) "codec_type" VNone) k2 = false.
Proof.
  intros Hne H1. destruct (eq_str _ k2) eqn:H2; [|reflexivity].
  apply eq_str_true in H1. apply eq_str_true in H2. congruence.
Qed.

(** A step that returns has put the stream at the end of the list of its
    kind, if it has one. *)
Lemma classify_step_filter k s k' :
  classify_step k s = Ok k' ->
  k_video k' = k_video k ++ List.filter is_video [s]
  /\ k_audio k' = k_audio k ++ List.filter is_audio [s]
  /\ k_subtitle k' = k_subtitle k ++ List.filter is_subtitle [s]
  /\ k_attachment k' = k_attachment k ++ List.filter is_attachment [s].
Proof.
  unfold classify_step, call_pure, call. cbn [List.filter].
  unfold is_audio, is_video, is_subtitle, is_attachment.
  destruct (__dict__ s !! "is_audio"); [discriminate|]. cbn [bind].
  destruct (eq_str _ "audio") eqn:E1.
  { rewrite (kind_exclusive "audio" "video"), (kind_exclusive "audio" "subtitle"),
      (kind_exclusive "audio" "attachment") by (auto; discriminate).
    intros [= <-]. simpl. now rewrite !app_nil_r. }
  destruct (__dict__ s !! "is_video"); [discriminate|]. cbn [bind].
  destruct (eq_str _ "video") eqn:E2.
  { rewrite (kind_exclusive "video" "subtitle"),
      (kind_exclusive "video" "attachment") by (auto; discriminate).
    intros [= <-]. simpl. now rewrite !app_nil_r. }
  destruct (__dict__ s !! "is_subtitle"); [discriminate|]. cbn [bind].
  destruct (eq_str _ "subtitle") eqn:E3.
  { rewrite (kind_exclusive "subtitle" "attachment") by (auto; discriminate).
    intros [= <-]. simpl. now rewrite !app_nil_r. }
  destruct (__dict__ s !! "is_attachment"); [discriminate|]. cbn [bind].
  destruct (eq_str _ "attachment") eqn:E4; intros [= <-]; simpl;
    now rewrite ?app_nil_r.
Qed.

(** The pass keeps, for each kind, the streams of that kind in order. *)
Lemma classify_filter l : forall k k',
  classify_loop k l = Ok k' ->
  k_video k' = k_video k ++ List.filter is_video l
  /\ k_audio k' = k_audio k ++ List.filter is_audio l
  /\ k_subtitle k' = k_subtitle k ++ List.filter is_subtitle l
  /\ k_attachment k' = k_attachment k ++ List.filter is_attachment l.
Proof.
  induction l as [|s l IH]; intros k k' H.
  - injection H as <-. simpl. now rewrite !app_nil_r.
  - cbn [classify_loop] in H. apply bind_ok in H as (k1 & H1 & H).
    apply IH in H as (Hv & Ha & Hs & Ht).
    apply classify_step_filter in H1 as (Hv1 & Ha1 & Hs1 & Ht1).
    rewrite Hv, Ha, Hs, Ht, Hv1, Ha1, Hs1, Ht1.
    change (s :: l) with ([s] ++ l). rewrite !List.filter_app, !app_assoc.
    auto.
Qed.

Lemma filter_kind (kind : string) (l : list FFStream) (r : FFStream) :
  In r (List.filter (fun s => eq_str (get (__dict__ s) "codec_type" VNone) kind) l)
  <-> In r l /\ has_kind kind r.
Proof. rewrite filter_In. now rewrite kind_test. Qed.

Lemma has_kind_inj k1 k2 r : has_kind k1 r -> has_kind k2 r -> k1 = k2.
Proof. unfold has_kind. congruence. Qed.

(** C3.  In a probe result each kind list holds the streams whose
    [codec_type] is the literal name of the kind: a stream is in the list of
    a kind iff it is a parsed stream with that [codec_type]; no stream is in
    two kind lists; every parsed stream, so every member of a kind list,
    occurs in the full list at exactly one position; a stream whose
    [codec_type] is absent or another value is in no kind list. *)
Theorem kind_lists_partition (out err : list string) (p : FFProbe) :
  FFProbe.__init__ out err = Ok p ->
  (forall r, In r (video p) <-> In r (streams p) /\ has_kind "video" r)
  /\ (forall r, In r (audio p) <-> In r (streams p) /\ has_kind "audio" r)
  /\ (forall r, In r (subtitle p)
                <-> In r (streams p) /\ has_kind "subtitle" r)
  /\ (forall r, In r (attachment p)
                <-> In r (streams p) /\ has_kind "attachment" r)
  /\ (disjoint (video p) (audio p) /\ disjoint (video p) (subtitle p)
      /\ disjoint (video p) (attachment p) /\ disjoint (audio p) (subtitle p)
      /\ disjoint (audio p) (attachment p)
      /\ disjoint (subtitle p) (attachment p))
  /\ (forall r, In r (streams p) -> occurs_once r (streams p))
  /\ (forall r,
        In r (video p) \/ In r (audio p) \/ In r (subtitle p)
        \/ In r (attachment p) -> occurs_once r (streams p))
  /\ (forall r,
        ~ has_kind "video" r -> ~ has_kind "audio" r ->
        ~ has_kind "subtitle" r -> ~ has_kind "attachment" r ->
        ~ In r (video p) /\ ~ In r (audio p) /\ ~ In r (subtitle p)
        /\ ~ In r (attachment p)).
Proof.
  unfold FFProbe.__init__. intros H.
  apply bind_ok in H as (b & Hb & H). apply bind_ok in H as (bm & Hbm & H).
  apply bind_ok in H as (k & Hk & H).
  injection H as <-. simpl.
  assert (Hids : ids_ok (self_streams (fst bm))).
  { eapply (stderr_loop_ids _ (b, meta_init)); eauto. simpl.
    eapply stdout_loop_ids; eauto. intros i r Hr. discriminate Hr. }
  destruct (classify_filter (self_streams (fst bm)) kinds_init k Hk)
    as (Hv & Ha & Hs & Ht).
  simpl in Hv, Ha, Hs, Ht. rewrite Hv, Ha, Hs, Ht.
  assert (V := filter_kind "video" (self_streams (fst bm))).
  assert (A := filter_kind "audio" (self_streams (fst bm))).
  assert (S := filter_kind "subtitle" (self_streams (fst bm))).
  assert (T := filter_kind "attachment" (self_streams (fst bm))).
  fold is_video in V. fold is_audio in A. fold is_subtitle in S.
  fold is_attachment in T.
  assert (D : forall k1 k2 r, k1 <> k2 -> has_kind k1 r -> has_kind k2 r -> False).
  { intros k1 k2 r Hne H1 H2. apply Hne. eapply has_kind_inj; eauto. }
  split; [intros r; apply V|].
  split; [intros r; apply A|].
  split; [intros r; apply S|].
  split; [intros r; apply T|].
  split.
  { unfold disjoint.
    repeat split; intros r H1 H2;
      (apply V in H1 || apply A in H1 || apply S in H1);
      (apply A in H2 || apply S in H2 || apply T in H2);
      destruct H1 as [_ H1], H2 as [_ H2];
      refine (D _ _ r _ H1 H2); discriminate. }
  split; [intros r Hr; now apply ids_ok_occurs_once|].
  split.
  { intros r [Hr|[Hr|[Hr|Hr]]]; apply ids_ok_occurs_once; auto;
      (apply V in Hr || apply A in Hr || apply S in Hr || apply T in Hr);
      tauto. }
  intros r Nv Na Ns Nt.
  repeat split; intros Hr;
    (apply V in Hr || apply A in Hr || apply S in Hr || apply T in Hr); tauto.
Qed.

(** The partition of the sample file. *)
Lemma kind_lists_partition_witness :
  exists p,
    FFProbe.__init__ sample_out sample_err = Ok p
    /\ (forall r, In r (video p)
                  <-> In r (streams p) /\ has_kind "video" r)
    /\ (forall r, In r (streams p) -> occurs_once r (streams p)).
Proof.
  destruct (is_ok_inv (FFProbe.__init__ sample_out sample_err)) as [p E];
    [vm_compute; reflexivity|].
  exists p. split; [exact E|].
  pose proof (kind_lists_partition sample_out sample_err p E) as H.
  split; [apply H | apply H].
Defined.

(** ** The second loop *)

(** The second loop is the block scan and the metadata scan side by side:
    neither reads what the other writes. *)
Lemma stderr_loop_split lines : forall b m b' m',
  stderr_loop (b, m) lines = Ok (b', m')
  <-> stdout_loop b lines = Ok b' /\ metadata_loop m lines = Ok m'.
Proof.
  induction lines as [|l ls IH]; intros b m b' m'; simpl.
  - split; [intros [= -> ->]; auto | intros [[= ->] [= ->]]; auto].
  - unfold stderr_step. simpl.
    destruct (metadata_step m l) as [m1|e1]; simpl.
    + destruct (block_step b l) as [b1|e2]; simpl.
      * apply IH.
      * split; [discriminate | intros [? _]; discriminate].
    + split; [discriminate | intros [_ ?]; discriminate].
Qed.

Lemma init_inv out err p :
  FFProbe.__init__ out err = Ok p ->
  exists b b' m,
    stdout_loop blocks_init out = Ok b
    /\ stdout_loop b err = Ok b'
    /\ metadata_loop meta_init err = Ok m
    /\ streams p = self_streams b'
    /\ metadata p = self_metadata m.
Proof.
  unfold FFProbe.__init__. intros H.
  apply bind_ok in H as (b & Hb & H). apply bind_ok in H as ([b' m] & Hbm & H).
  apply bind_ok in H as (k & Hk & H).
  injection H as <-. simpl. apply stderr_loop_split in Hbm as [H1 H2].
  exists b, b', m. auto.
Qed.

(** C6, as the code has it.  The loop over the diagnostic lines runs the
    metadata scan and, on the same lines, the same block scan as the first
    loop, from the scan state that the first loop left: each region of the
    diagnostic input adds a record to the full stream list; the metadata
    mapping is that of the metadata scan of the diagnostic lines alone. *)
Theorem stderr_blocks_are_parsed (out err : list string) (p : FFProbe) :
  FFProbe.__init__ out err = Ok p ->
  exists b recs m,
    stdout_loop blocks_init out = Ok b
    /\ build_all (length (self_streams b)) (regions_of (cur_of b) err) = Ok recs
    /\ streams p = self_streams b ++ recs
    /\ metadata_loop meta_init err = Ok m
    /\ metadata p = self_metadata m.
Proof.
  intros H. apply init_inv in H as (b & b' & m & Hb & Hb' & Hm & Hs & Hmd).
  assert (Hbd : bound b) by eauto using stdout_loop_bound, bound_init.
  pose proof (stdout_loop_regions err b Hbd) as E. rewrite Hb' in E. simpl in E.
  destruct (build_all _ _) as [recs|e] eqn:Hr; simpl in E; [|discriminate].
  injection E as E. exists b, recs, m. rewrite Hs, E. auto.
Qed.

(** C6 as stated fails: a block in the diagnostic lines adds a record to
    the full list and to the video list. *)
Lemma stderr_block_adds_stream :
  exists p q,
    FFProbe.__init__ [] block_err = Ok p /\ FFProbe.__init__ [] [] = Ok q
    /\ length (streams p) = 1%nat /\ length (video p) = 1%nat
    /\ streams q = [] /\ video q = [].
Proof.
  eexists. eexists. split; [vm_compute; reflexivity|].
  split; [vm_compute; reflexivity|]. repeat split.
Qed.

(** The theorem at the sample output followed by diagnostic lines that hold
    a block. *)
Lemma stderr_blocks_are_parsed_witness :
  exists p b recs m,
    FFProbe.__init__ sample_out block_err = Ok p
    /\ stdout_loop blocks_init sample_out = Ok b
    /\ build_all (length (self_streams b)) (regions_of (cur_of b) block_err) = Ok recs
    /\ streams p = self_streams b ++ recs
    /\ metadata_loop meta_init block_err = Ok m
    /\ metadata p = self_metadata m.
Proof.
  destruct (is_ok_inv (FFProbe.__init__ sample_out block_err)) as [p E];
    [vm_compute; reflexivity|].
  destruct (stderr_blocks_are_parsed sample_out block_err p E)
    as (b & recs & m & H).
  exists p, b, recs, m. split; [exact E | exact H].
Defined.

(** The sample file: two streams, one per kind, with their frame rates,
    frame counts and indices; the metadata of the container and not that of
    the streams. *)
Example sample_probe :
  (do p <- FFProbe.__init__ sample_out sample_err;
   Ok (map oid (streams p), map oid (video p), map oid (audio p),
       subtitle p, attachment p,
       map framerate (streams p), map (call "frames" frames) (streams p),
       map (call "stream_index" stream_index) (streams p),
       metadata p !! "title", metadata p !! "bitrate",
       metadata p !! "handler_name"))
  = Ok ([0; 1]%nat, [0]%nat, [1]%nat, [], [],
        [Some 30; Some 0], [Ok 375; Raise FFProbeError], [Ok 0; Ok 1],
        Some "My Movie", Some "1589 kb/s", None).
Proof. vm_compute. reflexivity. Qed.

(** ** The metadata scan *)

Lemma metadata_loop_app l1 : forall m l2,
  metadata_loop m (l1 ++ l2) = (do m1 <- metadata_loop m l1; metadata_loop m1 l2).
Proof.
  induction l1 as [|l l1 IH]; intros m l2; simpl; [reflexivity|].
  destruct (metadata_step m l); simpl; auto.
Qed.

(** After the stream marker the scan state is a fixed point of every step. *)
Lemma metadata_step_done m line :
  stream_metadata_met m = true -> is_metadata m = false ->
  metadata_step m line = Ok m.
Proof.
  destruct m as [md im met]. simpl. intros -> ->.
  unfold metadata_step. simpl. rewrite andb_false_r.
  now destruct (contains "Stream #" line).
Qed.

Lemma metadata_loop_done lines : forall m,
  stream_metadata_met m = true -> is_metadata m = false ->
  metadata_loop m lines = Ok m.
Proof.
  induction lines as [|l ls IH]; intros m H1 H2; simpl; [reflexivity|].
  rewrite metadata_step_done by assumption. simpl. now apply IH.
Qed.

Lemma metadata_step_stream_marker m line :
  contains "Stream #" line = true ->
  contains "Metadata:" line = false \/ stream_metadata_met m = true ->
  metadata_step m line = Ok (finished m).
Proof.
  intros Hs Hm. unfold metadata_step.
  replace (contains "Metadata:" line && negb (stream_metadata_met m))
    with false; [now rewrite Hs|].
  destruct Hm as [-> | ->]; [reflexivity | now rewrite andb_false_r].
Qed.

(** C7, as the code has it.  A line that contains the stream marker and is
    not taken as a metadata header ends the collection for good: whatever
    follows, the metadata scan of the whole input succeeds with the mapping
    it had before that line, and the probe result holds that mapping. *)
Theorem metadata_done_is_permanent (pre rest : list string) (line : string) :
  contains "Stream #" line = true ->
  contains "Metadata:" line = false ->
  (forall m, metadata_loop meta_init pre = Ok m ->
     metadata_loop meta_init (pre ++ line :: rest) = Ok (finished m))
  /\ (forall out p, FFProbe.__init__ out (pre ++ line :: rest) = Ok p ->
        exists m, metadata_loop meta_init pre = Ok m
                  /\ metadata p = self_metadata m).
Proof.
  intros Hs Hm.
  assert (E : forall m, metadata_loop m (line :: rest) = Ok (finished m)).
  { intros m. simpl. rewrite metadata_step_stream_marker by auto. simpl.
    now apply metadata_loop_done. }
  split.
  - intros m Hpre. rewrite metadata_loop_app, Hpre. cbn [bind]. apply E.
  - intros out p Hp.
    apply init_inv in Hp as (b & b' & m' & _ & _ & Hm' & _ & Hmd).
    rewrite metadata_loop_app in Hm'.
    destruct (metadata_loop meta_init pre) as [m|e]; [|discriminate].
    exists m. split; [reflexivity|]. cbn [bind] in Hm'. rewrite E in Hm'.
    injection Hm' as <-. assumption.
Qed.

(** C7 as stated fails: a line with the stream marker that also contains
    the metadata header, met inside the section, does not end the
    collection. *)
Lemma marker_in_header_keeps_collecting :
  exists m m',
    metadata_loop meta_init ["  Metadata:"] = Ok m
    /\ is_metadata m = true
    /\ contains "Stream #" header_with_marker = true
    /\ metadata_loop meta_init marker_err = Ok m'
    /\ self_metadata m !! "title" = None
    /\ self_metadata m' !! "title" = Some "x".
Proof.
  eexists. eexists. split; [vm_compute; reflexivity|].
  split; [reflexivity|]. split; [reflexivity|].
  split; [vm_compute; reflexivity|]. split; vm_compute; reflexivity.
Qed.

(** The sample diagnostic output: the mapping after the whole input is the
    mapping before the first stream line. *)
Lemma metadata_done_is_permanent_witness :
  exists m,
    metadata_loop meta_init sample_err_head = Ok m
    /\ self_metadata m !! "title" = Some "My Movie"
    /\ metadata_loop meta_init sample_err = Ok (finished m).
Proof.
  eexists. split; [vm_compute; reflexivity|].
  split; [vm_compute; reflexivity|].
  apply (proj1 (metadata_done_is_permanent sample_err_head sample_err_tail
                  sample_err_stream eq_refl eq_refl)).
  vm_compute. reflexivity.
Defined.

(** The metadata example of the design. *)
Example design_metadata :
  exists m,
    metadata_loop meta_init
      ["Metadata:"; "  title : My Movie, year : 2020"; "Stream #0";
       "Metadata:"; "  comment : none"] = Ok m
    /\ self_metadata m = <["year" := "2020"]> (<["title" := "My Movie"]> ∅).
Proof. eexists. split; vm_compute; reflexivity. Qed.

(** A segment that the pattern does not match makes the metadata scan
    raise; a line of the section is parsed only if every segment matches. *)
Lemma add_segments_unmatched splits : forall md,
  Exists (fun s => search_kv s = None) splits ->
  add_segments md splits = Raise AttributeError.
Proof.
  induction splits as [|s rest IH]; intros md H; [inversion H|].
  simpl. destruct (search_kv s) as [[k v]|] eqn:E; [|reflexivity].
  apply IH. inversion H; subst; [congruence | assumption].
Qed.

(** In the metadata section a line with a segment that the pattern does
    not match makes the scan raise. *)
Lemma metadata_step_unmatched m line :
  is_metadata m = true ->
  contains "Metadata:" line = false -> contains "Stream #" line = false ->
  Exists (fun s => search_kv s = None) (split "," line) ->
  metadata_step m line = Raise AttributeError.
Proof.
  intros Hm H1 H2 Hs. unfold metadata_step.
  rewrite H1, H2, Hm. simpl. now rewrite add_segments_unmatched.
Qed.

(** C4: the parse of a metadata section whose title holds a comma raises
    on the segment after the comma; no mapping is produced, also not for
    the segments that match. *)
Theorem unmatched_segment_aborts :
  FFProbe.__init__ sample_out comma_err = Raise AttributeError
  /\ metadata_loop meta_init comma_err = Raise AttributeError.
Proof. split; vm_compute; reflexivity. Qed.

(** * Further properties *)

(** ** The attribute dictionary that the constructor builds *)

Lemma set_framerate_inv d0 d :
  set_framerate d0 = Ok d ->
  exists v, d = <["framerate" := v]> d0 /\ (v = VNone \/ exists z, v = VInt z).
Proof.
  unfold set_framerate. intros H.
  destruct (framerate_expr d0) as [v|e] eqn:E.
  - injection H as <-. exists v. split; [reflexivity|].
    right. exact (framerate_expr_int _ _ E).
  - destruct e; try discriminate H; injection H as <-; eauto.
Qed.

Lemma init_line_inv d line d' :
  init_line d line = Ok d' ->
  exists key value rest v,
    split "=" (strip line) = key :: value :: rest
    /\ d' = <["framerate" := v]> (<[key := VStr value]> d)
    /\ (v = VNone \/ exists z, v = VInt z).
Proof.
  unfold init_line. intros H. apply bind_ok in H as (d1 & H1 & H2).
  unfold update_line in H1.
  destruct (split "=" (strip line)) as [|key [|value rest]] eqn:E;
    try discriminate H1.
  injection H1 as <-.
  apply set_framerate_inv in H2 as (v & -> & Hv).
  exists key, value, rest, v. auto.
Qed.


Lemma attrs_ok_empty : attrs_ok ∅.
Proof. intros k v H. rewrite lookup_empty in H. discriminate H. Qed.

Lemma init_line_attrs_ok d line d' :
  attrs_ok d -> init_line d line = Ok d' -> attrs_ok d'.
Proof.
  intros Hd H. apply init_line_inv in H as (key & value & rest & v & _ & -> & Hv).
  intros k x Hk. unfold attr_ok.
  destruct (String.eqb k "framerate") eqn:Ek.
  - apply String.eqb_eq in Ek. subst k.
    rewrite lookup_insert_eq in Hk. injection Hk as <-. exact Hv.
  - apply String.eqb_neq in Ek.
    rewrite lookup_insert_ne in Hk by congruence.
    destruct (decide (key = k)) as [->|Hne].
    + rewrite lookup_insert_eq in Hk. injection Hk as <-. eauto.
    + rewrite lookup_insert_ne in Hk by assumption.
      specialize (Hd k x Hk). unfold attr_ok in Hd.
      apply String.eqb_neq in Ek. now rewrite Ek in Hd.
Qed.

Lemma init_lines_attrs_ok lines : forall d d',
  attrs_ok d -> init_lines d lines = Ok d' -> attrs_ok d'.
Proof.
  induction lines as [|l lines IH]; intros d d' Hd H; simpl in H.
  - injection H as <-. exact Hd.
  - apply bind_ok in H as (d1 & H1 & H2).
    exact (IH _ _ (init_line_attrs_ok _ _ _ Hd H1) H2).
Qed.

Lemma init_attrs_ok id lines r :
  FFStream.__init__ id lines = Ok r -> attrs_ok (__dict__ r).
Proof.
  unfold FFStream.__init__. intros H. apply bind_ok in H as (d & H1 & H2).
  injection H2 as <-. simpl. exact (init_lines_attrs_ok _ _ _ attrs_ok_empty H1).
Qed.



(** A field named [framerate] is overwritten by the computed value. *)
Example framerate_field_overwritten :
  (do r <- FFStream.__init__ 0 ["avg_frame_rate=50/1"; "framerate=25"];
   Ok (__dict__ r !! "framerate")) = Ok (Some (VInt 50)).
Proof. vm_compute. reflexivity. Qed.

(** ** More on strings *)

Lemma contains_single (c : ascii) (s : string) :
  contains (String c "") s = true <-> exists a b, s = a +:+ String c b.
Proof.
  induction s as [|x s IH].
  - split; [discriminate|]. intros (a & b & H). destruct a; discriminate H.
  - rewrite contains_char_cons, orb_true_iff, IH, Ascii.eqb_eq. split.
    + intros [->|(a & b & ->)].
      * exists "", s. reflexivity.
      * exists (String x a), b. reflexivity.
    + intros (a & b & H). destruct a as [|y a]; simpl in H.
      * injection H as -> ->. now left.
      * injection H as -> ->. right. eauto.
Qed.

Lemma split_parts_no_sep (c : ascii) (s : string) :
  Forall (fun p => contains (String c "") p = false) (split c s).
Proof.
  induction s as [|x s IH]; simpl.
  - constructor; [reflexivity | constructor].
  - destruct (Ascii.eqb x c) eqn:E.
    + constructor; [reflexivity | exact IH].
    + destruct (split c s) as [|p ps]; constructor.
      * rewrite contains_char_cons, E. reflexivity.
      * constructor.
      * rewrite contains_char_cons, E. simpl. now inversion IH.
      * now inversion IH.
Qed.







(** ** What the frame rate computation can raise *)












(** A frame rate whose quotient is too large for a float does make the
    constructor raise [OverflowError]. *)
Example constructor_overflow :
  FFStream.__init__ 0
    ["avg_frame_rate=1" +:+ string_of_list_ascii (repeat "0"%char 400) +:+ "/1"]
  = Raise OverflowError.
Proof. vm_compute. reflexivity. Qed.

(** ** Where the attributes come from *)









(** ** The queries on the records that the constructor makes *)

Lemma get_text d key s0 :
  attrs_ok d -> key <> "framerate" -> exists s, get d key (VStr s0) = VStr s.
Proof.
  intros Hd Hk. unfold get. destruct (d !! key) as [v|] eqn:E; [|eauto].
  specialize (Hd _ _ E). unfold attr_ok in Hd.
  apply String.eqb_neq in Hk. now rewrite Hk in Hd.
Qed.



Lemma has_field_false name self :
  has_field name self = false <-> __dict__ self !! name = None.
Proof.
  unfold has_field. destruct (__dict__ self !! name); split; congruence.
Qed.

Lemma unshadowed_has_field names self :
  unshadowed names self <-> forallb (fun n => negb (has_field n self)) names = true.
Proof.
  unfold unshadowed. induction names as [|n names IH]; simpl.
  - split; [reflexivity | constructor].
  - rewrite Forall_cons_iff, andb_true_iff, IH, negb_true_iff, has_field_false.
    reflexivity.
Qed.




(** ** [frame_size] *)

Lemma truthy_text s : truthy (VStr s) = negb (String.eqb s "").
Proof. reflexivity. Qed.



Example frame_size_values :
  map (fun lines => do r <- FFStream.__init__ 0 lines;
                    call "frame_size" frame_size r)
    [["codec_type=video"; "width=1920"; "height=1080"];
     ["codec_type=video"; "width= 1_920 "; "height=+1080"];
     ["codec_type=video"; "width="; "height=abc"];
     ["codec_type=video"; "width=N/A"; "height=1080"];
     ["codec_type=video"; "height=1080"];
     ["codec_type=audio"; "width=N/A"]]
  = [Ok (Some (1920, 1080)); Ok (Some (1920, 1080)); Ok None;
     Raise FFProbeError; Raise KeyError; Ok None].
Proof. vm_compute. reflexivity. Qed.

(** ** [audio_channel_dispositions] *)

Lemma fill_disposition_spec self keys : forall d0,
  match fill_disposition self keys d0 with
  | Ok d =>
      (forall i, In i keys ->
         exists z, disposition_field self i = Ok z /\ d !! i = Some z)
      /\ (forall i, ~ In i keys -> d !! i = d0 !! i)
  | Raise e => exists i, In i keys /\ disposition_field self i = Raise e
  end.
Proof.
  induction keys as [|k keys IH]; intros d0; simpl.
  - split; [intros i []|reflexivity].
  - fold (disposition_field self k).
    destruct (disposition_field self k) as [v|e] eqn:Ek; simpl.
    + specialize (IH (<[k := v]> d0)).
      destruct (fill_disposition self keys (<[k := v]> d0)) as [d|e].
      * destruct IH as [IH1 IH2]. split.
        -- intros i [<-|Hi].
           ++ destruct (in_dec string_dec k keys) as [Hin|Hnin].
              ** exact (IH1 _ Hin).
              ** exists v. split; [exact Ek|].
                 rewrite (IH2 _ Hnin). apply lookup_insert_eq.
           ++ exact (IH1 _ Hi).
        -- intros i Hi. rewrite IH2 by tauto.
           apply lookup_insert_ne. tauto.
      * destruct IH as (i & Hi & E). exists i. tauto.
    + exists k. tauto.
Qed.

(** X7: [audio_channel_dispositions] returns a dictionary with exactly the
    seventeen flag names, each with the integer of its [DISPOSITION:] field;
    it fails exactly when one of these conversions fails, with the error
    of that conversion, which on a constructed record is [ValueError] (not
    [FFProbeError]). *)
Theorem audio_channel_dispositions_spec (self : FFStream) :
  (forall d, audio_channel_dispositions self = Ok d ->
     forall i z, d !! i = Some z
                 <-> In i disposition_keys /\ disposition_field self i = Ok z)
  /\ (forall e, audio_channel_dispositions self = Raise e ->
        exists i, In i disposition_keys /\ disposition_field self i = Raise e)
  /\ ((forall i, In i disposition_keys -> is_ok (disposition_field self i) = true)
      -> is_ok (audio_channel_dispositions self) = true)
  /\ (forall id lines e,
        FFStream.__init__ id lines = Ok self ->
        audio_channel_dispositions self = Raise e -> e = ValueError).
Proof.
  unfold audio_channel_dispositions.
  pose proof (fill_disposition_spec self disposition_keys ∅) as H.
  destruct (fill_disposition self disposition_keys ∅) as [d|e].
  - destruct H as [H1 H2]. split; [|split; [|split]].
    + intros d' [= <-] i z. split.
      * intros Hz. destruct (in_dec string_dec i disposition_keys) as [Hin|Hnin].
        -- destruct (H1 _ Hin) as (z' & E & Ez). split; [exact Hin | congruence].
        -- rewrite (H2 _ Hnin), lookup_empty in Hz. discriminate Hz.
      * intros [Hin E]. destruct (H1 _ Hin) as (z' & E' & Ez). congruence.
    + intros e He. discriminate He.
    + reflexivity.
    + intros id lines e _ He. discriminate He.
  - destruct H as (i & Hi & E). split; [|split; [|split]].
    + intros d Hd. discriminate Hd.
    + intros e' [= <-]. eauto.
    + intros Hall. specialize (Hall _ Hi). rewrite E in Hall. discriminate Hall.
    + intros id lines e' Hinit [= <-]. apply init_attrs_ok in Hinit.
      unfold disposition_field in E.
      destruct (get_text (__dict__ self) ("DISPOSITION:" +:+ i) "" Hinit)
        as [s Hs].
      * intros Heq. apply (f_equal (fun t => String.get 0 t)) in Heq.
        discriminate Heq.
      * rewrite Hs in E. simpl in E. exact (int_of_str_raises _ _ E).
Qed.

Lemma audio_channel_dispositions_spec_witness :
  exists r d,
    FFStream.__init__ 0 sample_dispositions = Ok r
    /\ audio_channel_dispositions r = Ok d
    /\ forall i z, d !! i = Some z
                   <-> In i disposition_keys /\ disposition_field r i = Ok z.
Proof.
  destruct (is_ok_inv (FFStream.__init__ 0 sample_dispositions)) as [r E];
    [vm_compute; reflexivity|].
  exists r.
  destruct (audio_channel_dispositions_spec r) as (H1 & _ & H3 & _).
  destruct (is_ok_inv (audio_channel_dispositions r)) as [d Ed].
  - refine (run_ok _ (fun r => is_ok (audio_channel_dispositions r)) _ r _ E).
    vm_compute. reflexivity.
  - exists d. split; [exact E|]. split; [exact Ed|]. exact (H1 d Ed).
Defined.

Example dispositions_values :
  (do r <- FFStream.__init__ 0 sample_dispositions;
   do d <- audio_channel_dispositions r;
   Ok (d !! "default", d !! "still_image", d !! "other", size d))
  = Ok (Some 0, Some 0, None, 17%nat)
  /\ (do r <- FFStream.__init__ 0 ["DISPOSITION:default=1"];
      audio_channel_dispositions r) = Raise ValueError.
Proof. split; vm_compute; reflexivity. Qed.

(** ** [duration_seconds] *)





(** ** [language] *)

(** X9: the key of the result of [language] is never [Und]; under the key
    [und] the name is [Undefined] whatever the language table says; any
    other key is the stored code, named by the table, whose errors
    propagate. *)
Theorem language_key (Lang_name : pyval -> result string) (self : FFStream) :
  (forall k name,
      language Lang_name self = Ok (k, name) ->
      k <> VStr "Und"
      /\ (k = VStr "und" -> name = "Undefined")
      /\ (k <> VStr "und" ->
          k = get (__dict__ self) "TAG:language" (VStr "Und")
          /\ Lang_name k = Ok name))
  /\ (forall e, language Lang_name self = Raise e ->
        Lang_name (get (__dict__ self) "TAG:language" (VStr "Und")) = Raise e).
Proof.
  unfold language.
  set (code := get (__dict__ self) "TAG:language" (VStr "Und")).
  destruct (eq_str code "und") eqn:E1; simpl.
  - split; [|discriminate]. intros k name [= <- <-].
    repeat split; congruence.
  - destruct (eq_str code "Und") eqn:E2; simpl.
    + split; [|discriminate]. intros k name [= <- <-].
      repeat split; congruence.
    + destruct (Lang_name code) as [n|e] eqn:EL; simpl.
      * split; [|discriminate]. intros k name [= <- <-].
        repeat split; try assumption.
        -- intros ->. discriminate E2.
        -- intros ->. discriminate E1.
      * split; [discriminate|]. now intros e' [= <-].
Qed.

Lemma language_key_witness :
  exists r,
    FFStream.__init__ 0 ["TAG:language=eng"] = Ok r
    /\ language (fun _ => Ok "English") r = Ok (VStr "eng", "English")
    /\ VStr "eng" <> VStr "Und"
    /\ (VStr "eng" <> VStr "und" ->
        VStr "eng" = get (__dict__ r) "TAG:language" (VStr "Und")
        /\ Ok "English" = Ok "English").
Proof.
  destruct (is_ok_inv (FFStream.__init__ 0 ["TAG:language=eng"])) as [r E];
    [vm_compute; reflexivity|].
  exists r. split; [exact E|].
  assert (H : language (fun _ => Ok "English") r = Ok (VStr "eng", "English")).
  { refine (run_ok _ (language (fun _ => Ok "English")) _ r _ E).
    vm_compute. reflexivity. }
  split; [exact H|].
  destruct (proj1 (language_key _ r) _ _ H) as (H1 & _ & H3). auto.
Defined.

(** ** Floating point: quotients of moderate size do not overflow *)









(** ** The frame rate is an integer that [str] prints *)















(** ** [__repr__] *)







Example repr_values :
  map (fun lines => do r <- FFStream.__init__ 0 lines; __repr__ (fun _ => "") r)
    [["index=0"; "codec_type=video"; "codec_long_name=H.264"; "width=640";
      "height=480"; "avg_frame_rate=-25/1"];
     ["index=0"; "codec_type=video"; "codec_long_name=H.264"; "width=640";
      "height="];
     ["index=1"; "codec_type=audio"; "codec_long_name=AAC"; "channels=2";
      "channel_layout=stereo"; "sample_rate=48000"];
     ["index=2"; "codec_type=subtitle"; "codec_long_name=SubRip subtitle"];
     ["index=3"; "codec_type=data"];
     []]
  = [Ok "<Stream: #0 [video] H.264, -25, (640x480)>";
     Ok "<Stream: #0 [video] H.264, None, (640x)>";
     Ok "<Stream: #1 [audio] AAC, channels: 2 (stereo), 48000Hz> ";
     Ok "<Stream: #2 [subtitle] SubRip subtitle>";
     Ok ""; Ok ""].
Proof. vm_compute. reflexivity. Qed.

(** ** The probe as a whole *)

Lemma stdout_loop_app l1 : forall st l2,
  stdout_loop st (l1 ++ l2) = (do st1 <- stdout_loop st l1; stdout_loop st1 l2).
Proof.
  induction l1 as [|l l1 IH]; intros st l2; simpl; [reflexivity|].
  destruct (block_step st l); simpl; [apply IH | reflexivity].
Qed.


(** X11: each kind list is the stream list filtered by the kind predicate:
    the records keep the order (and multiplicity) they have in
    [self.streams]. *)
Theorem kind_lists_in_stream_order (out err : list string) (p : FFProbe) :
  FFProbe.__init__ out err = Ok p ->
  video p = List.filter is_video (streams p)
  /\ audio p = List.filter is_audio (streams p)
  /\ subtitle p = List.filter is_subtitle (streams p)
  /\ attachment p = List.filter is_attachment (streams p).
Proof.
  unfold FFProbe.__init__. intros H.
  apply bind_ok in H as (b & _ & H). apply bind_ok in H as (bm & _ & H).
  apply bind_ok in H as (k & Hk & [= <-]).
  simpl. exact (classify_filter (self_streams (fst bm)) kinds_init k Hk).
Qed.

Lemma kind_lists_in_stream_order_witness :
  exists p,
    FFProbe.__init__ sample_out sample_err = Ok p
    /\ video p = List.filter is_video (streams p)
    /\ audio p = List.filter is_audio (streams p)
    /\ subtitle p = List.filter is_subtitle (streams p)
    /\ attachment p = List.filter is_attachment (streams p).
Proof.
  destruct (is_ok_inv (FFProbe.__init__ sample_out sample_err)) as [p E];
    [vm_compute; reflexivity|].
  exists p. split; [exact E|]. exact (kind_lists_in_stream_order _ _ p E).
Defined.





(** ** What the probe can raise *)





Lemma add_segments_raises splits : forall md e,
  add_segments md splits = Raise e -> e = AttributeError.
Proof.
  induction splits as [|s rest IH]; intros md e H; simpl in H; [discriminate H|].
  destruct (search_kv s) as [[k v]|]; [exact (IH _ _ H) | now injection H].
Qed.

Lemma metadata_step_raises m line e :
  metadata_step m line = Raise e -> e = AttributeError.
Proof.
  unfold metadata_step.
  destruct (_ && _); [discriminate|].
  destruct (contains "Stream #" line); [discriminate|].
  destruct (is_metadata m); [|discriminate].
  destruct (add_segments _ _) as [md|e'] eqn:E; simpl; [discriminate|].
  intros [= <-]. exact (add_segments_raises _ _ _ E).
Qed.

Lemma metadata_loop_raises lines : forall m e,
  metadata_loop m lines = Raise e -> e = AttributeError.
Proof.
  induction lines as [|l lines IH]; intros m e H; simpl in H; [discriminate H|].
  destruct (metadata_step m l) as [m'|e'] eqn:E; simpl in H.
  - exact (IH _ _ H).
  - injection H as <-. exact (metadata_step_raises _ _ _ E).
Qed.




(** ** Counting streams *)

Lemma regions_of_length lines : forall cur,
  (length (regions_of cur lines)
   <= match cur with Some _ => 1 | None => 0 end
      + length (List.filter opens lines))%nat
  /\ (length (regions_of cur lines) <= length (List.filter closes lines))%nat.
Proof.
  induction lines as [|l lines IH]; intros cur; simpl;
    [destruct cur; simpl; lia|].
  assert (Hc : closes l = contains "[/STREAM]" l && negb (opens l))
    by reflexivity.
  rewrite Hc. clear Hc. destruct (opens l) eqn:Eo; simpl.
  - rewrite andb_false_r. destruct (IH (Some [])) as [H1 H2].
    destruct cur; simpl in *; lia.
  - rewrite andb_true_r. destruct (contains "[/STREAM]" l); simpl.
    + destruct cur as [b|]; simpl.
      * destruct (IH None) as [H1 H2]. simpl in *. lia.
      * destruct (IH None) as [H1 H2]. simpl in *. lia.
    + destruct cur as [b|].
      * destruct (IH (Some (b ++ [l]))) as [H1 H2]. simpl in *. lia.
      * destruct (IH None) as [H1 H2]. simpl in *. lia.
Qed.

Lemma build_all_length bodies : forall next recs,
  build_all next bodies = Ok recs -> length recs = length bodies.
Proof.
  induction bodies as [|b bs IH]; intros next recs H; simpl in H.
  - now injection H as <-.
  - apply bind_ok in H as (r & _ & H). apply bind_ok in H as (rs & H & [= <-]).
    simpl. f_equal. exact (IH _ _ H).
Qed.

Lemma parse_blocks_regions lines :
  parse_blocks lines = build_all 0 (regions_of None lines).
Proof.
  unfold parse_blocks.
  rewrite (stdout_loop_regions lines blocks_init bound_init).
  change (length (self_streams blocks_init)) with 0%nat.
  change (cur_of blocks_init) with (@None (list string)).
  now destruct (build_all 0 (regions_of None lines)).
Qed.

Lemma kind_count (s : FFStream) :
  (Nat.b2n (is_video s) + Nat.b2n (is_audio s) + Nat.b2n (is_subtitle s)
   + Nat.b2n (is_attachment s) <= 1)%nat.
Proof.
  unfold is_video, is_audio, is_subtitle, is_attachment.
  destruct (get (__dict__ s) "codec_type" VNone) as [t| | |]; simpl; try lia.
  destruct (String.eqb t "video") eqn:E1;
    [apply String.eqb_eq in E1; subst; simpl; lia|].
  destruct (String.eqb t "audio") eqn:E2;
    [apply String.eqb_eq in E2; subst; simpl; lia|].
  destruct (String.eqb t "subtitle") eqn:E3;
    [apply String.eqb_eq in E3; subst; simpl; lia|].
  destruct (String.eqb t "attachment"); simpl; lia.
Qed.

Lemma filter_kinds_length (l : list FFStream) :
  (length (List.filter is_video l) + length (List.filter is_audio l)
   + length (List.filter is_subtitle l) + length (List.filter is_attachment l)
   <= length l)%nat.
Proof.
  induction l as [|s l IH]; simpl; [lia|].
  pose proof (kind_count s) as Hk.
  destruct (is_video s), (is_audio s), (is_subtitle s), (is_attachment s);
    simpl in *; lia.
Qed.

(** X14: there are no more streams than lines with the opening marker, and
    no more than closing lines; the four kind lists together are no longer
    than the stream list. *)
Theorem stream_count_bounded (out err : list string) (p : FFProbe) :
  FFProbe.__init__ out err = Ok p ->
  (length (streams p) <= length (List.filter opens (out ++ err)))%nat
  /\ (length (streams p) <= length (List.filter closes (out ++ err)))%nat
  /\ (length (video p) + length (audio p) + length (subtitle p)
      + length (attachment p) <= length (streams p))%nat.
Proof.
  intros H.
  assert (Hs : parse_blocks (out ++ err) = Ok (streams p)).
  { revert H. unfold FFProbe.__init__, parse_blocks. rewrite stdout_loop_app.
    intros H. apply bind_ok in H as (b & -> & H).
    apply bind_ok in H as ([b' m'] & H & H').
    apply bind_ok in H' as (k & _ & [= <-]). simpl.
    apply stderr_loop_split in H as [-> _]. reflexivity. }
  rewrite parse_blocks_regions in Hs. apply build_all_length in Hs. rewrite Hs.
  destruct (regions_of_length (out ++ err) None) as [H1 H2].
  split; [exact H1|]. split; [exact H2|].
  rewrite <- Hs.
  revert H. unfold FFProbe.__init__. intros H.
  apply bind_ok in H as (b & _ & H). apply bind_ok in H as (bm & _ & H).
  apply bind_ok in H as (k & Hk & [= <-]). simpl.
  destruct (classify_filter (self_streams (fst bm)) kinds_init k Hk)
    as (-> & -> & -> & ->). simpl.
  apply filter_kinds_length.
Qed.

Lemma stream_count_bounded_witness :
  exists p,
    FFProbe.__init__ sample_out sample_err = Ok p
    /\ (length (streams p) <= length (List.filter opens (sample_out ++ sample_err)))%nat
    /\ (length (streams p) <= length (List.filter closes (sample_out ++ sample_err)))%nat
    /\ (length (video p) + length (audio p) + length (subtitle p)
        + length (attachment p) <= length (streams p))%nat.
Proof.
  destruct (is_ok_inv (FFProbe.__init__ sample_out sample_err)) as [p E];
    [vm_compute; reflexivity|].
  exists p. split; [exact E|]. exact (stream_count_bounded _ _ p E).
Defined.

(** ** Inputs without markers *)

Lemma block_step_closed st line :
  stream st = false -> contains "[STREAM]" line = false ->
  block_step st line = Ok st.
Proof.
  intros Hs Hl. unfold block_step. rewrite Hl, Hs, andb_false_r. reflexivity.
Qed.

Lemma stdout_loop_closed lines : forall st,
  stream st = false ->
  Forall (fun l => contains "[STREAM]" l = false) lines ->
  stdout_loop st lines = Ok st.
Proof.
  induction lines as [|l lines IH]; intros st Hs Hf; simpl; [reflexivity|].
  inversion Hf as [|? ? Hl Hf']; subst.
  rewrite block_step_closed by assumption. simpl. now apply IH.
Qed.

Lemma metadata_step_outside m line :
  is_metadata m = false -> contains "Metadata:" line = false ->
  exists m', metadata_step m line = Ok m'
             /\ self_metadata m' = self_metadata m /\ is_metadata m' = false.
Proof.
  intros Hm Hl. unfold metadata_step. rewrite Hl, Hm. simpl.
  destruct (contains "Stream #" line); eauto.
Qed.

Lemma metadata_loop_outside lines : forall m,
  is_metadata m = false ->
  Forall (fun l => contains "Metadata:" l = false) lines ->
  exists m', metadata_loop m lines = Ok m'
             /\ self_metadata m' = self_metadata m /\ is_metadata m' = false.
Proof.
  induction lines as [|l lines IH]; intros m Hm Hf; simpl; [eauto|].
  inversion Hf as [|? ? Hl Hf']; subst.
  destruct (metadata_step_outside m l Hm Hl) as (m1 & -> & E1 & H1). simpl.
  destruct (IH m1 H1 Hf') as (m' & -> & E' & H'). exists m'.
  repeat split; congruence.
Qed.

(** X15: when no line with [Metadata:] comes before the first line with
    [Stream #], the metadata mapping stays empty and the scan cannot
    raise, whatever follows. *)
Theorem metadata_needs_header (pre rest : list string) :
  Forall (fun l => contains "Metadata:" l = false) pre ->
  match rest with
  | [] => True
  | l :: _ => contains "Stream #" l = true /\ contains "Metadata:" l = false
  end ->
  (exists m, metadata_loop meta_init (pre ++ rest) = Ok m
             /\ self_metadata m = ∅)
  /\ (forall out p, FFProbe.__init__ out (pre ++ rest) = Ok p ->
        metadata p = ∅).
Proof.
  intros Hpre Hrest.
  assert (H : exists m, metadata_loop meta_init (pre ++ rest) = Ok m
                        /\ self_metadata m = ∅).
  { rewrite metadata_loop_app.
    destruct (metadata_loop_outside pre meta_init eq_refl Hpre)
      as (m1 & -> & E1 & H1). simpl.
    destruct rest as [|l rest]; [exists m1; auto|].
    destruct Hrest as [Hs Hm]. simpl.
    rewrite (metadata_step_stream_marker m1 l Hs (or_introl Hm)). simpl.
    rewrite metadata_loop_done by reflexivity. exists (finished m1). auto. }
  split; [exact H|]. intros out p Hp.
  destruct H as (m & Hm & Em).
  apply init_inv in Hp as (b & b' & m' & _ & _ & Hm' & _ & ->). congruence.
Qed.

Lemma metadata_needs_header_witness :
  exists m,
    metadata_loop meta_init
      (["Input #0, matroska, from 'a.mkv':"; "  Duration: 00:00:10.00"]
       ++ ["  Stream #0:0: Video: h264"; "    Metadata:"; "      title : Main"])
    = Ok m /\ self_metadata m = ∅.
Proof.
  apply (metadata_needs_header
           ["Input #0, matroska, from 'a.mkv':"; "  Duration: 00:00:10.00"]
           ["  Stream #0:0: Video: h264"; "    Metadata:"; "      title : Main"]).
  - repeat constructor.
  - split; reflexivity.
Defined.

(** X16: inputs without an opening marker and without a metadata header
    (such as the output of the tool for a file it cannot read) give an
    object with no streams and no metadata: the parse reports nothing. *)
Theorem probe_without_markers (out err : list string) :
  Forall (fun l => contains "[STREAM]" l = false) (out ++ err) ->
  Forall (fun l => contains "Metadata:" l = false) err ->
  FFProbe.__init__ out err = Ok empty_probe.
Proof.
  intros Hb Hm. apply Forall_app in Hb as [Ho He].
  unfold FFProbe.__init__.
  rewrite (stdout_loop_closed out blocks_init eq_refl Ho). simpl.
  destruct (metadata_loop_outside err meta_init eq_refl Hm) as (m & Em & Es & _).
  assert (H : stderr_loop (blocks_init, meta_init) err = Ok (blocks_init, m)).
  { apply stderr_loop_split. split; [|exact Em].
    exact (stdout_loop_closed err blocks_init eq_refl He). }
  rewrite H. simpl. unfold empty_probe. now rewrite Es.
Qed.

Lemma probe_without_markers_witness :
  FFProbe.__init__ [] failed_err = Ok empty_probe.
Proof.
  apply probe_without_markers; repeat constructor.
Defined.

(** ** What a match of the metadata pattern gives *)

Section SearchFacts.
Context {A : Type}.

Lemma re_one_split p (k : ascii -> string -> option A) s x :
  re_one p k s = Some x ->
  exists c s', s = String c s' /\ p c = true /\ k c s' = Some x.
Proof.
  destruct s as [|c s']; simpl; [discriminate|].
  destruct (p c) eqn:E; [eauto | discriminate].
Qed.

Lemma re_star_split p : forall (k : string -> string -> option A) s x,
  re_star p k s = Some x ->
  exists m r, s = m +:+ r /\ all_chars p m = true /\ k m r = Some x.
Proof.
  intros k s. revert k. induction s as [|c s IH]; intros k x H; simpl in H.
  - exists "", "". auto.
  - destruct (p c) eqn:Ec; [|exists "", (String c s); auto].
    destruct (re_star p (fun m r => k (String c m) r) s) as [a|] eqn:E.
    + injection H as <-. apply IH in E as (m & r & -> & Hm & Hk).
      exists (String c m), r. simpl. rewrite Ec. auto.
    + exists "", (String c s). auto.
Qed.

Lemma re_search_split (r : string -> option A) : forall s x,
  re_search r s = Some x -> exists pre suf, s = pre +:+ suf /\ r suf = Some x.
Proof.
  induction s as [|c s IH]; intros x H; simpl in H.
  - destruct (r "") eqn:E; [|discriminate]. injection H as <-.
    exists "", "". auto.
  - destruct (r (String c s)) eqn:E.
    + injection H as <-. exists "", (String c s). auto.
    + apply IH in H as (pre & suf & -> & H). exists (String c pre), suf. auto.
Qed.
End SearchFacts.

Lemma append_assoc (a b c : string) : (a +:+ b) +:+ c = a +:+ (b +:+ c).
Proof.
  induction a as [|x a IH]; [reflexivity|].
  change (String x ((a +:+ b) +:+ c) = String x (a +:+ (b +:+ c))).
  now rewrite IH.
Qed.

Lemma contains_single_app (c : ascii) (a b : string) :
  contains (String c "") (a +:+ b)
  = contains (String c "") a || contains (String c "") b.
Proof.
  induction a as [|x a IH].
  - reflexivity.
  - change (String x a +:+ b) with (String x (a +:+ b)).
    rewrite !contains_char_cons, IH. now rewrite orb_assoc.
Qed.

Lemma search_kv_groups s k v :
  search_kv s = Some (k, v) ->
  k <> "" /\ all_chars isword k = true /\ all_chars not_newline v = true
  /\ exists pre post, s = pre +:+ v +:+ post.
Proof.
  unfold search_kv. intros H.
  apply re_search_split in H as (pre & suf & -> & H). unfold kv_pattern in H.
  apply re_one_split in H as (c & r0 & -> & Hc & H).
  apply re_star_split in H as (w & r1 & -> & Hw & H).
  apply re_star_split in H as (sp1 & r2 & -> & _ & H).
  apply re_one_split in H as (colon & r3 & -> & _ & H).
  apply re_star_split in H as (sp2 & r4 & -> & _ & H).
  apply re_star_split in H as (v' & r5 & -> & Hv & H).
  destruct (at_dollar r5); [|discriminate H]. injection H as <- <-.
  split; [discriminate|]. split; [simpl; now rewrite Hc|]. split; [exact Hv|].
  exists (pre +:+ String c w +:+ sp1 +:+ String colon sp2), r5.
  rewrite !append_assoc. reflexivity.
Qed.

(** ** Stripped text *)

Lemma lstrip_no_lead p s : no_lead p (lstrip_by p s).
Proof.
  induction s as [|c s IH]; simpl; [exact I|].
  destruct (p c) eqn:E; [exact IH | exact E].
Qed.

Lemma lstrip_of_no_lead p s : no_lead p s -> lstrip_by p s = s.
Proof. destruct s as [|c s]; simpl; [reflexivity|]. now intros ->. Qed.

Lemma rstrip_no_lead p s : no_lead p s -> no_lead p (rstrip_by p s).
Proof.
  destruct s as [|c s]; simpl; [easy|]. intros Hc.
  destruct (rstrip_by p s); [rewrite Hc|]; exact Hc.
Qed.

Lemma rstrip_idem p s : rstrip_by p (rstrip_by p s) = rstrip_by p s.
Proof.
  induction s as [|c s IH]; simpl; [reflexivity|].
  destruct (rstrip_by p s) as [|y r] eqn:E.
  - destruct (p c) eqn:Ec; simpl; [reflexivity | now rewrite Ec].
  - simpl in IH |- *. now rewrite IH.
Qed.

Lemma strip_by_idem p s : strip_by p (strip_by p s) = strip_by p s.
Proof.
  unfold strip_by.
  rewrite (lstrip_of_no_lead p (rstrip_by p (lstrip_by p s))).
  - apply rstrip_idem.
  - apply rstrip_no_lead, lstrip_no_lead.
Qed.

Lemma lstrip_all_chars p q s :
  all_chars q s = true -> all_chars q (lstrip_by p s) = true.
Proof.
  induction s as [|c s IH]; simpl; [easy|].
  intros H. apply andb_true_iff in H as [Hc Hs].
  destruct (p c); [now apply IH | simpl; now rewrite Hc].
Qed.

Lemma rstrip_all_chars p q s :
  all_chars q s = true -> all_chars q (rstrip_by p s) = true.
Proof.
  induction s as [|c s IH]; simpl; [easy|].
  intros H. apply andb_true_iff in H as [Hc Hs]. specialize (IH Hs).
  destruct (rstrip_by p s) as [|y r].
  - destruct (p c); simpl; [reflexivity | now rewrite Hc].
  - simpl in IH |- *. now rewrite Hc.
Qed.

(** ** The entries of the metadata mapping *)

Lemma search_kv_entry s k v :
  contains "," s = false -> search_kv s = Some (k, v) -> entry_ok k (strip v).
Proof.
  intros Hs H. apply search_kv_groups in H as (Hk & Hw & Hv & pre & post & ->).
  rewrite !contains_single_app in Hs.
  apply orb_false_iff in Hs as [_ Hs]. apply orb_false_iff in Hs as [Hs _].
  unfold entry_ok, strip. repeat split; try assumption.
  - apply strip_by_idem.
  - unfold strip_by. now apply rstrip_no_char, lstrip_no_char.
  - unfold strip_by. now apply rstrip_all_chars, lstrip_all_chars.
Qed.

Lemma add_segments_entries splits : forall md md',
  Forall (fun s => contains "," s = false) splits ->
  entries_ok md -> add_segments md splits = Ok md' -> entries_ok md'.
Proof.
  induction splits as [|s rest IH]; intros md md' Hf Hmd H; simpl in H.
  - now injection H as <-.
  - inversion Hf as [|? ? Hs Hf']; subst.
    destruct (search_kv s) as [[k v]|] eqn:E; [|discriminate H].
    apply (IH _ _ Hf' ) in H; [exact H|].
    intros k' v' Hk'. destruct (decide (k = k')) as [->|Hne].
    + rewrite lookup_insert_eq in Hk'. injection Hk' as <-.
      exact (search_kv_entry _ _ _ Hs E).
    + rewrite lookup_insert_ne in Hk' by assumption. exact (Hmd _ _ Hk').
Qed.

Lemma metadata_step_entries m line m' :
  entries_ok (self_metadata m) -> metadata_step m line = Ok m' ->
  entries_ok (self_metadata m').
Proof.
  intros Hm. unfold metadata_step.
  destruct (_ && _); [now intros [= <-]|].
  destruct (contains "Stream #" line); [now intros [= <-]|].
  destruct (is_metadata m); [|now intros [= <-]].
  intros H. apply bind_ok in H as (md & H & [= <-]). simpl.
  exact (add_segments_entries _ _ _ (split_parts_no_sep "," line) Hm H).
Qed.

Lemma metadata_loop_entries lines : forall m m',
  entries_ok (self_metadata m) -> metadata_loop m lines = Ok m' ->
  entries_ok (self_metadata m').
Proof.
  induction lines as [|l lines IH]; intros m m' Hm H; simpl in H.
  - now injection H as <-.
  - apply bind_ok in H as (m1 & H1 & H2).
    exact (IH _ _ (metadata_step_entries _ _ _ Hm H1) H2).
Qed.

(** X17: every entry of the metadata mapping has a non-empty key of word
    characters and a value without white space at its ends, without comma
    and without newline. *)
Theorem metadata_entries_shape (out err : list string) (p : FFProbe)
    (k v : string) :
  FFProbe.__init__ out err = Ok p ->
  metadata p !! k = Some v ->
  k <> "" /\ all_chars isword k = true
  /\ strip v = v /\ contains "," v = false /\ all_chars not_newline v = true.
Proof.
  intros H Hk. apply init_inv in H as (b & b' & m & _ & _ & Hm & _ & E).
  rewrite E in Hk.
  assert (H0 : entries_ok (self_metadata meta_init)).
  { intros k' v' H'. simpl in H'. rewrite lookup_empty in H'. discriminate H'. }
  exact (metadata_loop_entries _ _ _ H0 Hm k v Hk).
Qed.

Lemma metadata_entries_shape_witness :
  exists p,
    FFProbe.__init__ sample_out sample_err = Ok p
    /\ metadata p !! "title" = Some "My Movie"
    /\ strip "My Movie" = "My Movie" /\ contains "," "My Movie" = false.
Proof.
  destruct (is_ok_inv (FFProbe.__init__ sample_out sample_err)) as [p E];
    [vm_compute; reflexivity|].
  exists p. split; [exact E|].
  assert (Hk : metadata p !! "title" = Some "My Movie").
  { refine (run_ok _ (fun p => metadata p !! "title") _ p _ E).
    vm_compute. reflexivity. }
  split; [exact Hk|].
  destruct (metadata_entries_shape _ _ p _ _ E Hk) as (_ & _ & H1 & H2 & _).
  auto.
Defined.

(** ** Later pairs replace earlier ones *)

Lemma add_segments_app s1 : forall md s2,
  add_segments md (s1 ++ s2)
  = (do md1 <- add_segments md s1; add_segments md1 s2).
Proof.
  induction s1 as [|s s1 IH]; intros md s2; simpl; [reflexivity|].
  destruct (search_kv s) as [[k v]|]; [apply IH | reflexivity].
Qed.

Lemma add_segments_untouched splits : forall md md' k,
  add_segments md splits = Ok md' ->
  Forall (fun s => segment_key s <> Some k) splits ->
  md' !! k = md !! k.
Proof.
  induction splits as [|s rest IH]; intros md md' k H Hf; simpl in H.
  - now injection H as <-.
  - inversion Hf as [|? ? Hs Hf']; subst. unfold segment_key in Hs.
    destruct (search_kv s) as [[k' v]|]; [|discriminate H]. simpl in Hs.
    rewrite (IH _ _ _ H Hf'). apply lookup_insert_ne. congruence.
Qed.

Lemma add_segments_keeps splits : forall md md' k,
  add_segments md splits = Ok md' -> is_Some (md !! k) -> is_Some (md' !! k).
Proof.
  induction splits as [|s rest IH]; intros md md' k H Hk; simpl in H.
  - now injection H as <-.
  - destruct (search_kv s) as [[k' v]|]; [|discriminate H].
    apply (IH _ _ _ H). destruct (decide (k' = k)) as [->|Hne].
    + rewrite lookup_insert_eq. eauto.
    + now rewrite lookup_insert_ne.
Qed.

Lemma metadata_step_keeps m line m' k :
  metadata_step m line = Ok m' ->
  is_Some (self_metadata m !! k) -> is_Some (self_metadata m' !! k).
Proof.
  unfold metadata_step.
  destruct (_ && _); [now intros [= <-]|].
  destruct (contains "Stream #" line); [now intros [= <-]|].
  destruct (is_metadata m); [|now intros [= <-]].
  intros H. apply bind_ok in H as (md & H & [= <-]). simpl.
  exact (add_segments_keeps _ _ _ _ H).
Qed.

Lemma metadata_loop_keeps lines : forall m m' k,
  metadata_loop m lines = Ok m' ->
  is_Some (self_metadata m !! k) -> is_Some (self_metadata m' !! k).
Proof.
  induction lines as [|l lines IH]; intros m m' k H Hk; simpl in H.
  - now injection H as <-.
  - apply bind_ok in H as (m1 & H1 & H2).
    exact (IH _ _ _ H2 (metadata_step_keeps _ _ _ _ H1 Hk)).
Qed.

(** X18: the metadata scan never removes a key; in the metadata section a
    pair of a line replaces the earlier pairs with the same key, of that
    line and of the lines before. *)
Theorem metadata_last_value_wins (m m' : meta) (line : string) :
  metadata_step m line = Ok m' ->
  (forall k, is_Some (self_metadata m !! k) -> is_Some (self_metadata m' !! k))
  /\ (is_metadata m = true ->
      contains "Metadata:" line = false -> contains "Stream #" line = false ->
      forall pre s post k v,
        split "," line = pre ++ s :: post ->
        search_kv s = Some (k, v) ->
        Forall (fun t => segment_key t <> Some k) post ->
        self_metadata m' !! k = Some (strip v)).
Proof.
  intros H. split; [intros k; exact (metadata_step_keeps _ _ _ k H)|].
  intros Hm H1 H2 pre s post k v Es Ek Hpost.
  unfold metadata_step in H. rewrite H1, H2, Hm in H. simpl in H.
  apply bind_ok in H as (md & H & [= <-]). simpl.
  rewrite Es, add_segments_app in H. apply bind_ok in H as (md1 & _ & H).
  simpl in H. rewrite Ek in H.
  rewrite (add_segments_untouched _ _ _ _ H Hpost). apply lookup_insert_eq.
Qed.

Lemma metadata_last_value_wins_witness :
  exists m', metadata_step
               {| self_metadata := <["title" := "Old"]> ∅; is_metadata := true;
                  stream_metadata_met := false |}
               "  title : A, year : 2020, title : B" = Ok m'
             /\ self_metadata m' !! "title" = Some "B".
Proof.
  destruct (is_ok_inv (metadata_step
               {| self_metadata := <["title" := "Old"]> ∅; is_metadata := true;
                  stream_metadata_met := false |}
               "  title : A, year : 2020, title : B")) as [m' E];
    [vm_compute; reflexivity|].
  exists m'. split; [exact E|].
  apply (proj2 (metadata_last_value_wins _ _ _ E) eq_refl eq_refl eq_refl
           ["  title : A"; " year : 2020"] " title : B" [] "title" "B").
  - reflexivity.
  - vm_compute. reflexivity.
  - constructor.
Defined.

(** ** When the constructor succeeds *)















(** ** When the parse succeeds *)









(** ** From a line to the result of a query *)


